(** * Storage configuration resolution of the image registry operator

    A shallow embedding of [pkg/clusterconfig/clusterconfig.go] and the
    properties of [GetAWSConfig] and [GetGCSConfig].

    The Go functions talk to the cluster through a client.  Here every
    external call is answered by an oracle ([Cluster]) and recorded in a
    trace, and the only way time passes is the sleeping of the poll, which
    advances a simulated clock. *)

From Stdlib Require Import ZArith String Ascii List Lia.
From stdpp Require Import gmap strings.

Local Open Scope Z_scope.
Local Open Scope string_scope.
Local Open Scope list_scope.

(** ** Go values *)

(** Go's [error] values as far as this package tells them apart: an API
    status error carries a reason ([metav1.StatusReason] is a string type),
    [wait.ErrWaitTimeout] is the sentinel of the poll, and [errorString] is
    what [fmt.Errorf] and [errors.New] build. *)
Inductive error : Type :=
| StatusError (reason : string) (message : string)
| ErrWaitTimeout
| errorString (s : string).

(** A Go result pair [(T, error)]: either the value with a nil error, or
    an error. *)
Inductive result (A : Type) : Type :=
| Ok (a : A)
| Err (e : error).
Arguments Ok {A} a.
Arguments Err {A} e.

Definition StatusReasonNotFound : string := "NotFound".

(** [errors.IsNotFound]: the reason of the error is [NotFound]; an error
    that is no API status has the unknown reason. *)
Definition IsNotFound (err : error) : bool :=
  match err with
  | StatusError reason _ => String.eqb reason StatusReasonNotFound
  | _ => false
  end.

(** [err.Error()], which is what the verb [%v] prints. *)
Definition Error (err : error) : string :=
  match err with
  | StatusError _ message => message
  | ErrWaitTimeout => "timed out waiting for the condition"
  | errorString s => s
  end.

Definition dquote : ascii := ascii_of_nat 34.

(** The verb [%q] on a string that needs no escaping (object names and
    keys are made of letters, digits, [-], [_], [.] and [/]): the string
    between double quotes. *)
Definition fmt_q (s : string) : string :=
  String dquote (s +:+ String dquote EmptyString).

(** [fmt.Sprintf("%s/%s", namespace, name)] *)
Definition qualified (namespace name : string) : string :=
  namespace +:+ "/" +:+ name.

(** [time.Duration] counts nanoseconds. *)
Definition Duration : Type := Z.
Definition Second : Duration := 1000000000.
Definition Minute : Duration := 60 * Second.

(** ** What the package reads from outside *)

(** The part of [installer.InstallConfig] the package looks at: the AWS
    block of the platform is a pointer, so it may be absent. *)
Record AWSPlatform : Type := mkAWSPlatform {
  AWS_Region : string
}.

Record Platform : Type := mkPlatform {
  AWS : option AWSPlatform
}.

Record InstallConfig : Type := mkInstallConfig {
  InstallConfig_Platform : Platform
}.

(** A ConfigMap holds [map[string]string], a Secret [map[string][]byte]. *)
Record ConfigMap : Type := mkConfigMap {
  ConfigMap_Data : gmap string string
}.

Record Secret : Type := mkSecret {
  Secret_Data : gmap string (list Byte.byte)
}.

(** Handles: the rest configuration and the client built from it. *)
Record rest_Config : Type := mk_rest_Config {
  Host : string
}.

Record CoreV1Client : Type := mkCoreV1Client {
  restConfig : rest_Config
}.

(** The external calls the package makes. *)
Inductive Call : Type :=
| CallGetConfig
| CallNewForConfig
| CallConfigMapsGet (namespace name : string)
| CallSecretsGet (namespace name : string).

(** The outside world as an oracle: the first argument of every field is
    the number of external calls made before this one, so that the same
    request may be answered differently as the run goes on (a secret that
    appears while the poll waits). *)
Record Cluster : Type := mkCluster {
  regopclient_GetConfig : nat -> result rest_Config;
  coreset_NewForConfig : nat -> rest_Config -> result CoreV1Client;
  ConfigMaps_Get : nat -> string -> string -> result ConfigMap;
  Secrets_Get : nat -> string -> string -> result Secret
}.

(** The state of a run: the simulated clock and the calls made so far,
    oldest first. *)
Record World : Type := mkWorld {
  clock : Duration;
  trace : list Call
}.

Definition start : World := mkWorld 0 [].

(** ** The monad of a run *)

Definition M (A : Type) : Type := World -> A * World.

Definition ret {A : Type} (a : A) : M A := fun w => (a, w).

Definition bind {A B : Type} (m : M A) (k : A -> M B) : M B :=
  fun w => let (a, w') := m w in k a w'.

Notation "x <- m ;; k" := (bind m (fun x => k))
  (at level 20, m at level 99, k at level 200, format "'[v' x  <-  m  ;;  '/' k ']'").

(** An external call: the oracle answers for the current position, and the
    call is appended to the trace. *)
Definition call {A : Type} (c : Call) (answer : nat -> A) : M A :=
  fun w => (answer (length (trace w)), mkWorld (clock w) (trace w ++ [c])).

(** [time.Sleep] on the simulated clock. *)
Definition sleep (d : Duration) : M unit :=
  fun w => (tt, mkWorld (clock w + d) (trace w)).

(** ** [k8s.io/apimachinery/pkg/util/wait] *)

Module wait.

(** Modelled from the spec: [wait.PollImmediate] belongs to
    [k8s.io/apimachinery], which is not among the sources.  The spec has
    the poll check immediately, then retry at a fixed interval until
    success or until the maximum wait has elapsed, abort at once on an
    error of the condition, and fail with a timeout-class error at the
    ceiling.  Waiting is sleeping on the simulated clock, so that a poll
    over [timeout] with spacing [interval] makes the immediate check and
    one check per tick, the last one when the clock reaches the ceiling. *)

(** A [wait.ConditionFunc] returns [(done bool, err error)]. *)
Definition ConditionFunc : Type := M (bool * option error).

(** Modelled from the spec: the loop of the poll.  After every interval
    the condition is tried again; when the ticks up to the timeout are used
    up the poll gives [ErrWaitTimeout]. *)
Fixpoint WaitFor (interval : Duration) (ticks : nat) (fn : ConditionFunc)
  : M (option error) :=
  match ticks with
  | O => ret (Some ErrWaitTimeout)
  | S ticks' =>
      tick <- sleep interval ;;
      r <- fn ;;
      match r with
      | (_, Some err) => ret (Some err)
      | (true, None) => ret None
      | (false, None) => WaitFor interval ticks' fn
      end
  end.

(** Modelled from the spec: [wait.PollImmediate(interval, timeout,
    condition)].  The condition is tried before any waiting, then every
    [interval] until it reports done, returns an error, or [timeout] has
    passed. *)
Definition PollImmediate (interval timeout : Duration) (condition : ConditionFunc)
  : M (option error) :=
  r <- condition ;;
  match r with
  | (_, Some err) => ret (Some err)
  | (true, None) => ret None
  | (false, None) => WaitFor interval (Z.to_nat (timeout / interval)) condition
  end.

End wait.

(** ** Package [clusterconfig] *)

Module clusterconfig.

(** ** The data model of the package *)

Definition StorageType : Type := string.

Definition StorageTypeAzure : StorageType := "azure".
Definition StorageTypeGCS : StorageType := "gcs".
Definition StorageTypeS3 : StorageType := "s3".
Definition StorageTypeEmptyDir : StorageType := "emptydir".
Definition StorageTypeFileSystem : StorageType := "filesystem".
Definition StorageTypeSwift : StorageType := "swift".

Definition installerConfigNamespace : string := "kube-system".
Definition installerConfigName : string := "cluster-config-v1".
Definition cloudCredentialsName : string := "installer-cloud-credentials".

Record Azure : Type := mkAzure {
  AccountName : string;
  AccountKey : string;
  Container : string
}.

Record GCS : Type := mkGCS {
  GCS_Bucket : string;
  KeyfileData : string
}.

Record S3 : Type := mkS3 {
  AccessKey : string;
  SecretKey : string;
  Bucket : string;
  Region : string
}.

Record Storage : Type := mkStorage {
  Type_ : StorageType;
  Storage_Azure : Azure;
  Storage_GCS : GCS;
  Storage_S3 : S3
}.

Record Config : Type := mkConfig {
  Config_Storage : Storage
}.

(** [&Config{}]: every field has its zero value. *)
Definition zeroAzure : Azure := mkAzure "" "" "".
Definition zeroGCS : GCS := mkGCS "" "".
Definition zeroS3 : S3 := mkS3 "" "" "" "".
Definition zeroConfig : Config :=
  mkConfig (mkStorage "" zeroAzure zeroGCS zeroS3).

(** Assignments to fields of [cfg]. *)
Definition set_Type (cfg : Config) (t : StorageType) : Config :=
  let s := Config_Storage cfg in
  mkConfig (mkStorage t (Storage_Azure s) (Storage_GCS s) (Storage_S3 s)).

Definition set_S3 (cfg : Config) (f : S3 -> S3) : Config :=
  let s := Config_Storage cfg in
  mkConfig (mkStorage (Type_ s) (Storage_Azure s) (Storage_GCS s) (f (Storage_S3 s))).

Definition set_Region (cfg : Config) (v : string) : Config :=
  set_S3 cfg (fun s => mkS3 (AccessKey s) (SecretKey s) (Bucket s) v).

Definition set_AccessKey (cfg : Config) (v : string) : Config :=
  set_S3 cfg (fun s => mkS3 v (SecretKey s) (Bucket s) (Region s)).

Definition set_SecretKey (cfg : Config) (v : string) : Config :=
  set_S3 cfg (fun s => mkS3 (AccessKey s) v (Bucket s) (Region s)).

(** ** The functions of [clusterconfig.go] *)

Section Clusterconfig.

(** Constants of [pkg/apis/imageregistry/v1] and the decoder of
    [k8s.io/apimachinery/pkg/util/yaml]. *)
Variable ImageRegistryOperatorNamespace : string.
Variable ImageRegistryPrivateConfigurationUser : string.
Variable yaml_Decode : string -> result InstallConfig.

Variable cluster : Cluster.

Definition Secrets (client : CoreV1Client) (namespace name : string)
  : M (result Secret) :=
  call (CallSecretsGet namespace name)
       (fun i => Secrets_Get cluster i namespace name).

Definition ConfigMaps (client : CoreV1Client) (namespace name : string)
  : M (result ConfigMap) :=
  call (CallConfigMapsGet namespace name)
       (fun i => ConfigMaps_Get cluster i namespace name).

Definition GetCoreClient : M (result CoreV1Client) :=
  r <- call CallGetConfig (regopclient_GetConfig cluster) ;;
  match r with
  | Err err => ret (Err err)
  | Ok kubeconfig =>
      r <- call CallNewForConfig
             (fun i => coreset_NewForConfig cluster i kubeconfig) ;;
      match r with
      | Err err => ret (Err err)
      | Ok client => ret (Ok client)
      end
  end.

Definition GetInstallConfig : M (result InstallConfig) :=
  r <- GetCoreClient ;;
  match r with
  | Err err => ret (Err err)
  | Ok client =>
      r <- ConfigMaps client installerConfigNamespace installerConfigName ;;
      match r with
      | Err err =>
          ret (Err (errorString
            ("unable to read cluster install configuration: " +:+ Error err)))
      | Ok cm =>
          match yaml_Decode (default "" (ConfigMap_Data cm !! "install-config")) with
          | Err err =>
              ret (Err (errorString
                ("unable to decode cluster install configuration: " +:+ Error err)))
          | Ok installConfig => ret (Ok installConfig)
          end
      end
  end.

(** The condition of the poll in [GetAWSConfig].  The closure also stores
    the secret in [sec], which the read that follows the poll overwrites. *)
Definition systemSecretReady (client : CoreV1Client) : wait.ConditionFunc :=
  r <- Secrets client ImageRegistryOperatorNamespace cloudCredentialsName ;;
  match r with
  | Err err =>
      if IsNotFound err then ret (false, None) else ret (false, Some err)
  | Ok _ => ret (true, None)
  end.

(** The error of the four places where a key is not in the secret:
    [secret %q does not contain required key], then the key in quotes. *)
Definition missingKey (secret key : string) : error :=
  errorString ("secret " +:+ fmt_q secret +:+
               " does not contain required key " +:+ fmt_q key).

Definition GetAWSConfig : M (result Config) :=
  r <- GetCoreClient ;;
  match r with
  | Err err => ret (Err err)
  | Ok client =>
  let cfg := zeroConfig in
  r <- GetInstallConfig ;;
  match r with
  | Err err => ret (Err err)
  | Ok installConfig =>
  let cfg := set_Type cfg StorageTypeS3 in
  let cfg :=
    match AWS (InstallConfig_Platform installConfig) with
    | Some aws => set_Region cfg (AWS_Region aws)
    | None => cfg
    end in
  r <- Secrets client ImageRegistryOperatorNamespace
         ImageRegistryPrivateConfigurationUser ;;
  match r with
  | Err err =>
      if IsNotFound err then
        err <- wait.PollImmediate (1 * Second) (5 * Minute) (systemSecretReady client) ;;
        match err with
        | Some err => ret (Err err)
        | None =>
            r <- Secrets client ImageRegistryOperatorNamespace cloudCredentialsName ;;
            match r with
            | Err err =>
                ret (Err (errorString
                  ("unable to get secret " +:+
                   fmt_q (qualified installerConfigNamespace cloudCredentialsName) +:+
                   ": " +:+ Error err)))
            | Ok sec =>
                match Secret_Data sec !! "aws_access_key_id" with
                | Some v =>
                    let cfg := set_AccessKey cfg (string_of_list_byte v) in
                    match Secret_Data sec !! "aws_secret_access_key" with
                    | Some v =>
                        let cfg := set_SecretKey cfg (string_of_list_byte v) in
                        ret (Ok cfg)
                    | None =>
                        ret (Err (missingKey
                          (qualified installerConfigNamespace cloudCredentialsName)
                          "aws_secret_access_key"))
                    end
                | None =>
                    ret (Err (missingKey
                      (qualified installerConfigNamespace cloudCredentialsName)
                      "aws_access_key_id"))
                end
            end
        end
      else ret (Err err)
  | Ok sec =>
      match Secret_Data sec !! "REGISTRY_STORAGE_S3_ACCESSKEY" with
      | Some v =>
          let cfg := set_AccessKey cfg (string_of_list_byte v) in
          match Secret_Data sec !! "REGISTRY_STORAGE_S3_SECRETKEY" with
          | Some v =>
              let cfg := set_SecretKey cfg (string_of_list_byte v) in
              ret (Ok cfg)
          | None =>
              ret (Err (missingKey
                (qualified ImageRegistryOperatorNamespace
                   ImageRegistryPrivateConfigurationUser)
                "REGISTRY_STORAGE_S3_SECRETKEY"))
          end
      | None =>
          ret (Err (missingKey
            (qualified ImageRegistryOperatorNamespace
               ImageRegistryPrivateConfigurationUser)
            "REGISTRY_STORAGE_S3_ACCESSKEY"))
      end
  end
  end
  end.

Definition GetGCSConfig : M (result Config) :=
  let cfg := zeroConfig in
  let cfg := set_Type cfg StorageTypeGCS in
  ret (Ok cfg).

(** ** Vocabulary for the statements *)

(** A run that gets as far as the secrets makes five calls first: the
    client of [GetAWSConfig], the client of [GetInstallConfig], and the read
    of the ConfigMap. *)
Definition installCalls : list Call :=
  [CallGetConfig; CallNewForConfig; CallGetConfig; CallNewForConfig;
   CallConfigMapsGet installerConfigNamespace installerConfigName].

Definition userCall : Call :=
  CallSecretsGet ImageRegistryOperatorNamespace ImageRegistryPrivateConfigurationUser.

Definition systemCall : Call :=
  CallSecretsGet ImageRegistryOperatorNamespace cloudCredentialsName.

(** Both clients are built and the ConfigMap read at call 4 decodes to the
    install descriptor [ic]. *)
Definition installConfigRead (ic : InstallConfig) : Prop :=
  exists k1 c1 k2 c2 cm,
    regopclient_GetConfig cluster 0 = Ok k1 /\
    coreset_NewForConfig cluster 1 k1 = Ok c1 /\
    regopclient_GetConfig cluster 2 = Ok k2 /\
    coreset_NewForConfig cluster 3 k2 = Ok c2 /\
    ConfigMaps_Get cluster 4 installerConfigNamespace installerConfigName = Ok cm /\
    yaml_Decode (default "" (ConfigMap_Data cm !! "install-config")) = Ok ic.

(** The read of the user-defined secret is call 5. *)
Definition userSecretRead (r : result Secret) : Prop :=
  Secrets_Get cluster 5 ImageRegistryOperatorNamespace
    ImageRegistryPrivateConfigurationUser = r.

Definition userSecretNotFound : Prop :=
  exists err, userSecretRead (Err err) /\ IsNotFound err = true.

(** The read of the system secret made as call [i]. *)
Definition systemSecretRead (i : nat) (r : result Secret) : Prop :=
  Secrets_Get cluster i ImageRegistryOperatorNamespace cloudCredentialsName = r.

Definition systemSecretAbsent (i : nat) : Prop :=
  exists err, systemSecretRead i (Err err) /\ IsNotFound err = true.

(** The system secret [sec] is there when the check made as call [i]
    looks for it, and it stays: [GetAWSConfig] reads the secret once more
    right after the poll, as call [S i], and takes the keys from that
    second read. *)
Definition systemSecretPresent (i : nat) (sec : Secret) : Prop :=
  systemSecretRead i (Ok sec) /\ systemSecretRead (S i) (Ok sec).

(** The region the install descriptor gives: the field of the AWS block,
    nothing without the block. *)
Definition regionOf (ic : InstallConfig) : string :=
  match AWS (InstallConfig_Platform ic) with
  | Some aws => AWS_Region aws
  | None => ""
  end.

(** The S3 configuration with the given credentials and region, all other
    fields zero. *)
Definition s3Config (accessKey secretKey region : string) : Config :=
  mkConfig (mkStorage StorageTypeS3 zeroAzure zeroGCS
              (mkS3 accessKey secretKey "" region)).

End Clusterconfig.

Definition isSecretsGet (c : Call) : bool :=
  match c with
  | CallSecretsGet _ _ => true
  | _ => false
  end.

(** The number of checks of a poll with the arguments of [GetAWSConfig]:
    the immediate one and one per second of the five minutes. *)
Definition maxChecks : nat := S (Z.to_nat (5 * Minute / (1 * Second))).

(** Worlds the poll goes through: after a check made at once, after a tick
    and its check, after [m] ticks with their checks, and after the
    immediate check followed by [m] ticks with their checks. *)
Definition tried (ns : string) (w : World) : World :=
  mkWorld (clock w) (trace w ++ [systemCall ns]).

Definition ticked (ns : string) (interval : Duration) (w : World) : World :=
  mkWorld (clock w + interval) (trace w ++ [systemCall ns]).

Definition waited (ns : string) (interval : Duration) (m : nat) (w : World) : World :=
  mkWorld (clock w + Z.of_nat m * interval) (trace w ++ repeat (systemCall ns) m).

Definition polled (ns : string) (interval : Duration) (m : nat) (w : World) : World :=
  mkWorld (clock w + Z.of_nat m * interval) (trace w ++ repeat (systemCall ns) (S m)).

(** The world once the user-defined secret has been asked for. *)
Definition afterUser (ns user : string) : World :=
  mkWorld 0 (installCalls ++ [userCall ns user]).

(** The two key extractions that follow the read of a secret, as one
    table: the first missing key is reported, otherwise both values go into
    the configuration. *)
Definition extracted (secret accessName secretName region : string) (sec : Secret)
  : result Config :=
  match Secret_Data sec !! accessName with
  | None => Err (missingKey secret accessName)
  | Some a =>
      match Secret_Data sec !! secretName with
      | None => Err (missingKey secret secretName)
      | Some s =>
          Ok (s3Config (string_of_list_byte a) (string_of_list_byte s) region)
      end
  end.

(** The S3 block of a configuration. *)
Definition S3_of (cfg : Config) : S3 := Storage_S3 (Config_Storage cfg).

(** No secret was asked for in the calls made so far. *)
Definition noSecretLookup (w : World) : Prop :=
  forall c, In c (trace w) -> isSecretsGet c = false.

End clusterconfig.

Import clusterconfig.

(** ** Sample clusters

    Concrete values to run the functions on: a decoder that knows two
    payloads, and clusters whose clients always build and whose secrets
    follow a given schedule. *)

(** Modelled from the spec: [ImageRegistryOperatorNamespace] and
    [ImageRegistryPrivateConfigurationUser] are constants of
    [pkg/apis/imageregistry/v1], which is not among the sources, and the
    functions above take them as parameters.  The spec has the two secrets
    in a fixed operator namespace, which it tells apart from the system
    namespace [kube-system] of the ConfigMap, and the user-defined secret
    under a fixed name of its own. *)

Definition sampleNamespace : string := "openshift-image-registry".
Definition sampleUser : string := "image-registry-private-configuration-user".

Definition sampleDecode (payload : string) : result InstallConfig :=
  if String.eqb payload "aws: us-east-1"
  then Ok (mkInstallConfig (mkPlatform (Some (mkAWSPlatform "us-east-1"))))
  else if String.eqb payload "libvirt"
  then Ok (mkInstallConfig (mkPlatform None))
  else Err (errorString "couldn't get version/kind; json parse error").

Definition notFound : error := StatusError "NotFound" "secrets not found".
Definition forbidden : error := StatusError "Forbidden" "secrets is forbidden".

Definition sampleKubeconfig : rest_Config := mk_rest_Config "https://172.30.0.1:443".
Definition sampleClient : CoreV1Client := mkCoreV1Client sampleKubeconfig.

Definition sampleCluster (cm : result ConfigMap)
    (secrets : nat -> string -> string -> result Secret) : Cluster :=
  mkCluster
    (fun _ => Ok sampleKubeconfig)
    (fun _ kubeconfig => Ok (mkCoreV1Client kubeconfig))
    (fun _ namespace name =>
       if String.eqb namespace "kube-system" && String.eqb name "cluster-config-v1"
       then cm
       else Err (StatusError "NotFound" "configmaps not found"))
    secrets.

Definition withPayload (payload : string) : result ConfigMap :=
  Ok (mkConfigMap {[ "install-config" := payload ]}).

Definition awsInstall : result ConfigMap := withPayload "aws: us-east-1".
Definition libvirtInstall : result ConfigMap := withPayload "libvirt".

Definition awsDescriptor : InstallConfig :=
  mkInstallConfig (mkPlatform (Some (mkAWSPlatform "us-east-1"))).
Definition libvirtDescriptor : InstallConfig :=
  mkInstallConfig (mkPlatform None).

(** Only the user-defined secret exists. *)
Definition userOnly (sec : Secret) (i : nat) (namespace name : string)
  : result Secret :=
  if String.eqb namespace sampleNamespace && String.eqb name sampleUser
  then Ok sec else Err notFound.

(** No user-defined secret; the system secret exists from call [n] on. *)
Definition systemFrom (n : nat) (sec : Secret) (i : nat) (namespace name : string)
  : result Secret :=
  if String.eqb namespace sampleNamespace && String.eqb name cloudCredentialsName
     && (n <=? i)%nat
  then Ok sec else Err notFound.

(** No secret exists, and call [n] is refused. *)
Definition refusedAt (n : nat) (i : nat) (namespace name : string)
  : result Secret :=
  if (i =? n)%nat then Err forbidden else Err notFound.

Definition noSecrets (i : nat) (namespace name : string) : result Secret :=
  Err notFound.

Definition secretOf (l : list (string * string)) : Secret :=
  mkSecret (list_to_map (map (fun kv => (fst kv, list_byte_of_string (snd kv))) l)).

Definition sampleUserSecret : Secret :=
  secretOf [("REGISTRY_STORAGE_S3_ACCESSKEY", "AKIDEXAMPLE");
            ("REGISTRY_STORAGE_S3_SECRETKEY", "s3cr3t")].

Definition sampleSystemSecret : Secret :=
  secretOf [("aws_access_key_id", "AKIDSYSTEM");
            ("aws_secret_access_key", "syst3m")].

(** A user-defined secret and a system secret whose keys are there with
    an empty value. *)
Definition emptyAccessKeySecret : Secret :=
  secretOf [("REGISTRY_STORAGE_S3_ACCESSKEY", "");
            ("REGISTRY_STORAGE_S3_SECRETKEY", "s3cr3t")].

Definition emptySecretKeySecret : Secret :=
  secretOf [("aws_access_key_id", "AKIDSYSTEM");
            ("aws_secret_access_key", "")].

(** A system secret without [aws_access_key_id], there from the first
    check of the poll. *)
Definition keylessSecret : Secret := secretOf [("aws_secret_access_key", "syst3m")].

Definition keylessCluster : Cluster :=
  sampleCluster awsInstall (systemFrom 6 keylessSecret).

(** ** More sample clusters *)

(** A cluster in which the call numbered [n], if it builds a client, is
    refused. *)
Definition brokenClientAt (n : nat) (cm : result ConfigMap)
    (secrets : nat -> string -> string -> result Secret) : Cluster :=
  mkCluster
    (fun i => if (i =? n)%nat then Err forbidden else Ok sampleKubeconfig)
    (fun i kubeconfig =>
       if (i =? n)%nat then Err forbidden else Ok (mkCoreV1Client kubeconfig))
    (fun _ namespace name =>
       if String.eqb namespace "kube-system" && String.eqb name "cluster-config-v1"
       then cm
       else Err (StatusError "NotFound" "configmaps not found"))
    secrets.

Definition configMapNotFound : error :=
  StatusError "NotFound" "configmaps not found".

(** The ConfigMap is missing; the ConfigMap is there without the
    [install-config] key. *)
Definition missingInstall : result ConfigMap := Err configMapNotFound.
Definition keylessInstall : result ConfigMap := Ok (mkConfigMap ∅).

(** Both secrets exist. *)
Definition bothSecrets (usec ssec : Secret) (i : nat) (namespace name : string)
  : result Secret :=
  if String.eqb name sampleUser then Ok usec
  else if String.eqb name cloudCredentialsName then Ok ssec
  else Err notFound.

(** No user-defined secret; the read made as call [n] gets [sec0] and the
    next read gets [r]. *)
Definition systemOnceThen (n : nat) (sec0 : Secret) (r : result Secret)
    (i : nat) (namespace name : string) : result Secret :=
  if (i =? n)%nat then Ok sec0
  else if (i =? S n)%nat then r
  else Err notFound.


(** The calls of [GetInstallConfig]. *)
Definition readCalls : list Call :=
  [CallGetConfig; CallNewForConfig;
   CallConfigMapsGet installerConfigNamespace installerConfigName].

(** * Properties *)

Lemma maxChecks_eq : maxChecks = 301%nat.
Proof. reflexivity. Qed.

(** ** The poll *)

Section Poll.

Variable ns : string.
Variable cluster : Cluster.
Variable client : CoreV1Client.
Variable interval : Duration.

Local Abbreviation ready := (systemSecretReady ns cluster client).
Local Abbreviation absent := (systemSecretAbsent ns cluster).
Local Abbreviation tried := (tried ns).
Local Abbreviation ticked := (ticked ns interval).
Local Abbreviation waited := (waited ns interval).
Local Abbreviation polled := (polled ns interval).

Lemma ready_eq (w : World) :
  ready w =
  (match Secrets_Get cluster (length (trace w)) ns cloudCredentialsName with
   | Ok _ => (true, None)
   | Err err => if IsNotFound err then (false, None) else (false, Some err)
   end, tried w).
Proof.
  unfold systemSecretReady, Secrets, bind, call, clusterconfig.tried, systemCall.
  destruct (Secrets_Get _ _ _ _) as [sec|err]; [reflexivity|].
  destruct (IsNotFound err); reflexivity.
Qed.

Lemma WaitFor_S (ticks : nat) (w : World) :
  wait.WaitFor interval (S ticks) ready w =
  match Secrets_Get cluster (length (trace w)) ns cloudCredentialsName with
  | Ok _ => (None, ticked w)
  | Err err =>
      if IsNotFound err then wait.WaitFor interval ticks ready (ticked w)
      else (Some err, ticked w)
  end.
Proof.
  cbn [wait.WaitFor]. unfold bind at 1. unfold sleep.
  unfold bind at 1. rewrite ready_eq. cbn [trace clock tried].
  unfold clusterconfig.ticked.
  destruct (Secrets_Get _ _ _ _) as [sec|err]; [reflexivity|].
  destruct (IsNotFound err); reflexivity.
Qed.

Lemma waited_0 (w : World) : waited 0 w = w.
Proof.
  destruct w as [c t]. unfold clusterconfig.waited. cbn [clock trace repeat Z.of_nat].
  rewrite app_nil_r. f_equal. lia.
Qed.

Lemma waited_S (m : nat) (w : World) : waited m (ticked w) = waited (S m) w.
Proof.
  unfold clusterconfig.waited, clusterconfig.ticked. cbn [clock trace repeat].
  rewrite <- app_assoc. f_equal. lia.
Qed.

Lemma length_waited (m : nat) (w : World) :
  length (trace (waited m w)) = (length (trace w) + m)%nat.
Proof.
  unfold clusterconfig.waited. cbn [trace]. rewrite length_app, repeat_length. reflexivity.
Qed.

(** Ticks whose check finds nothing are skipped over. *)
Lemma WaitFor_skip (m ticks : nat) (w : World) :
  (forall i, (i < m)%nat -> absent (length (trace w) + i)%nat) ->
  wait.WaitFor interval (m + ticks) ready w = wait.WaitFor interval ticks ready (waited m w).
Proof.
  revert w. induction m as [|m IH]; intros w Habs.
  - rewrite waited_0. reflexivity.
  - change (S m + ticks)%nat with (S (m + ticks)). rewrite WaitFor_S.
    destruct (Habs 0%nat) as (err & Hread & Hnf); [lia|].
    unfold systemSecretRead in Hread. rewrite Nat.add_0_r in Hread.
    rewrite Hread, Hnf. rewrite IH.
    + rewrite waited_S. reflexivity.
    + intros i Hi. unfold clusterconfig.ticked. cbn [trace]. rewrite length_app. cbn [length].
      replace (length (trace w) + 1 + i)%nat with (length (trace w) + S i)%nat by lia.
      apply Habs. lia.
Qed.

Lemma PollImmediate_eq (timeout : Duration) (w : World) :
  wait.PollImmediate interval timeout ready w =
  match Secrets_Get cluster (length (trace w)) ns cloudCredentialsName with
  | Ok _ => (None, tried w)
  | Err err =>
      if IsNotFound err
      then wait.WaitFor interval (Z.to_nat (timeout / interval)) ready (tried w)
      else (Some err, tried w)
  end.
Proof.
  unfold wait.PollImmediate. unfold bind at 1. rewrite ready_eq.
  destruct (Secrets_Get _ _ _ _) as [sec|err]; [reflexivity|].
  destruct (IsNotFound err); reflexivity.
Qed.

Lemma polled_0 (w : World) : polled 0 w = tried w.
Proof.
  unfold clusterconfig.polled, clusterconfig.tried. cbn [repeat]. f_equal. lia.
Qed.

Lemma ticked_waited_tried (m : nat) (w : World) :
  ticked (waited m (tried w)) = polled (S m) w.
Proof.
  unfold clusterconfig.polled, clusterconfig.ticked, clusterconfig.waited, clusterconfig.tried.
  cbn [clock trace].
  rewrite <- !app_assoc. f_equal; [lia|].
  f_equal. rewrite <- repeat_cons. reflexivity.
Qed.

(** The check that follows [m] checks which found nothing decides the
    poll, as long as the ticks allow it. *)
Lemma PollImmediate_decide (timeout : Duration) (m : nat) (w : World) :
  (m <= Z.to_nat (timeout / interval))%nat ->
  (forall i, (i < m)%nat -> absent (length (trace w) + i)%nat) ->
  wait.PollImmediate interval timeout ready w =
  match Secrets_Get cluster (length (trace w) + m) ns cloudCredentialsName with
  | Ok _ => (None, polled m w)
  | Err err =>
      if IsNotFound err
      then wait.WaitFor interval (Z.to_nat (timeout / interval) - m) ready (polled m w)
      else (Some err, polled m w)
  end.
Proof.
  intros Hm Habs. rewrite PollImmediate_eq.
  set (ticks := Z.to_nat (timeout / interval)) in *.
  destruct m as [|m].
  - rewrite Nat.add_0_r, Nat.sub_0_r, polled_0. reflexivity.
  - destruct (Habs 0%nat) as (err & Hread & Hnf); [lia|].
    unfold systemSecretRead in Hread. rewrite Nat.add_0_r in Hread.
    rewrite Hread, Hnf.
    replace ticks with (m + S (ticks - S m))%nat at 1 by lia.
    rewrite WaitFor_skip.
    + rewrite WaitFor_S, length_waited, ticked_waited_tried.
      unfold clusterconfig.tried at 1. cbn [trace]. rewrite length_app. cbn [length].
      replace (length (trace w) + 1 + m)%nat with (length (trace w) + S m)%nat by lia.
      reflexivity.
    + intros i Hi. unfold clusterconfig.tried. cbn [trace]. rewrite length_app. cbn [length].
      replace (length (trace w) + 1 + i)%nat with (length (trace w) + S i)%nat by lia.
      apply Habs. lia.
Qed.

(** The poll only adds reads of the system secret to the trace. *)
Lemma WaitFor_extends (ticks : nat) (w : World) :
  exists n, trace (snd (wait.WaitFor interval ticks ready w)) =
            trace w ++ repeat (systemCall ns) n.
Proof.
  revert w. induction ticks as [|ticks IH]; intros w.
  - exists 0%nat. cbn. rewrite app_nil_r. reflexivity.
  - rewrite WaitFor_S.
    assert (Hone : trace (ticked w) = trace w ++ repeat (systemCall ns) 1)
      by reflexivity.
    destruct (Secrets_Get _ _ _ _) as [sec|err]; [exists 1%nat; exact Hone|].
    destruct (IsNotFound err); [|exists 1%nat; exact Hone].
    destruct (IH (ticked w)) as (n & Hn). exists (S n).
    rewrite Hn. unfold clusterconfig.ticked. cbn [trace repeat].
    rewrite <- app_assoc. reflexivity.
Qed.

Lemma PollImmediate_extends (timeout : Duration) (w : World) :
  exists n, trace (snd (wait.PollImmediate interval timeout ready w)) =
            trace w ++ repeat (systemCall ns) n.
Proof.
  rewrite PollImmediate_eq.
  assert (Hone : trace (tried w) = trace w ++ repeat (systemCall ns) 1)
    by reflexivity.
  destruct (Secrets_Get _ _ _ _) as [sec|err]; [exists 1%nat; exact Hone|].
  destruct (IsNotFound err); [|exists 1%nat; exact Hone].
  destruct (WaitFor_extends (Z.to_nat (timeout / interval)) (tried w)) as (n & Hn).
  exists (S n). rewrite Hn. unfold clusterconfig.tried. cbn [trace repeat].
  rewrite <- app_assoc. reflexivity.
Qed.

End Poll.

(** ** Running the monad *)

Lemma bind_run {A B : Type} (m : M A) (k : A -> M B) (w w' : World) (a : A) :
  m w = (a, w') -> bind m k w = k a w'.
Proof. intros H. unfold bind. rewrite H. reflexivity. Qed.

Lemma call_run {A : Type} (c : Call) (answer : nat -> A) (w : World) :
  call c answer w = (answer (length (trace w)), mkWorld (clock w) (trace w ++ [c])).
Proof. reflexivity. Qed.

(** One step of a run that is an external call. *)
Ltac run_call := rewrite (bind_run _ _ _ _ _ (call_run _ _ _)).

(** ** [GetAWSConfig] once the install configuration is read *)

Section Resolution.

Variable ns user : string.
Variable yaml_Decode : string -> result InstallConfig.
Variable cluster : Cluster.

Local Abbreviation GetAWSConfig := (GetAWSConfig ns user yaml_Decode cluster).
Local Abbreviation GetInstallConfig := (GetInstallConfig yaml_Decode cluster).
Local Abbreviation installConfigRead := (installConfigRead yaml_Decode cluster).
Local Abbreviation afterUser := (afterUser ns user).

Lemma GetCoreClient_eq (w : World) :
  GetCoreClient cluster w =
  match regopclient_GetConfig cluster (length (trace w)) with
  | Err err => (Err err, mkWorld (clock w) (trace w ++ [CallGetConfig]))
  | Ok k =>
      (match coreset_NewForConfig cluster (S (length (trace w))) k with
       | Err err => Err err
       | Ok c => Ok c
       end, mkWorld (clock w) (trace w ++ [CallGetConfig; CallNewForConfig]))
  end.
Proof.
  unfold GetCoreClient. run_call.
  destruct (regopclient_GetConfig _ _) as [k|err]; [|reflexivity].
  run_call. cbn [trace clock]. rewrite length_app, Nat.add_1_r, <- app_assoc.
  destruct (coreset_NewForConfig _ _ _); reflexivity.
Qed.

Lemma GetCoreClient_ok (w : World) (k : rest_Config) (c : CoreV1Client) :
  regopclient_GetConfig cluster (length (trace w)) = Ok k ->
  coreset_NewForConfig cluster (S (length (trace w))) k = Ok c ->
  GetCoreClient cluster w =
  (Ok c, mkWorld (clock w) (trace w ++ [CallGetConfig; CallNewForConfig])).
Proof.
  intros Hk Hc. rewrite GetCoreClient_eq, Hk, Hc. reflexivity.
Qed.

Lemma GetInstallConfig_read (w : World) (k : rest_Config) (c : CoreV1Client) :
  regopclient_GetConfig cluster (length (trace w)) = Ok k ->
  coreset_NewForConfig cluster (S (length (trace w))) k = Ok c ->
  GetInstallConfig w =
  (match ConfigMaps_Get cluster (S (S (length (trace w))))
           installerConfigNamespace installerConfigName with
   | Err err =>
       Err (errorString
              ("unable to read cluster install configuration: " +:+ Error err))
   | Ok cm =>
       match yaml_Decode (default "" (ConfigMap_Data cm !! "install-config")) with
       | Err err =>
           Err (errorString
                  ("unable to decode cluster install configuration: " +:+ Error err))
       | Ok installConfig => Ok installConfig
       end
   end,
   mkWorld (clock w)
     (trace w ++ [CallGetConfig; CallNewForConfig;
                  CallConfigMapsGet installerConfigNamespace installerConfigName])).
Proof.
  intros Hk Hc. unfold clusterconfig.GetInstallConfig.
  rewrite (bind_run _ _ _ _ _ (GetCoreClient_ok _ _ _ Hk Hc)).
  unfold ConfigMaps. run_call. cbn [trace clock].
  rewrite length_app, <- app_assoc. cbn [length app].
  replace (length (trace w) + 2)%nat with (S (S (length (trace w)))) by lia.
  destruct (ConfigMaps_Get _ _ _ _) as [cm|err]; [|reflexivity].
  destruct (yaml_Decode _) as [installConfig|err]; reflexivity.
Qed.

(** The configuration the assignments of [GetAWSConfig] build. *)
Lemma config_built (ic : InstallConfig) (a s : string) :
  set_SecretKey
    (set_AccessKey
       match AWS (InstallConfig_Platform ic) with
       | Some aws => set_Region (set_Type zeroConfig StorageTypeS3) (AWS_Region aws)
       | None => set_Type zeroConfig StorageTypeS3
       end a) s
  = s3Config a s (regionOf ic).
Proof.
  unfold regionOf. destruct (AWS (InstallConfig_Platform ic)); reflexivity.
Qed.

Lemma GetAWSConfig_eq (ic : InstallConfig) :
  installConfigRead ic ->
  exists client,
  GetAWSConfig start =
  match Secrets_Get cluster 5 ns user with
  | Ok sec =>
      (extracted (qualified ns user)
         "REGISTRY_STORAGE_S3_ACCESSKEY" "REGISTRY_STORAGE_S3_SECRETKEY"
         (regionOf ic) sec, afterUser)
  | Err err =>
      if IsNotFound err then
        let (e, w) :=
          wait.PollImmediate (1 * Second) (5 * Minute)
            (systemSecretReady ns cluster client) afterUser in
        match e with
        | Some e => (Err e, w)
        | None =>
            match Secrets_Get cluster (length (trace w)) ns cloudCredentialsName with
            | Err err =>
                (Err (errorString
                   ("unable to get secret " +:+
                    fmt_q (qualified installerConfigNamespace cloudCredentialsName) +:+
                    ": " +:+ Error err)), tried ns w)
            | Ok sec =>
                (extracted (qualified installerConfigNamespace cloudCredentialsName)
                   "aws_access_key_id" "aws_secret_access_key"
                   (regionOf ic) sec, tried ns w)
            end
        end
      else (Err err, afterUser)
  end.
Proof.
  intros (k1 & c1 & k2 & c2 & cm & Hk1 & Hc1 & Hk2 & Hc2 & Hcm & Hdec).
  exists c1. unfold clusterconfig.GetAWSConfig.
  rewrite (bind_run _ _ _ _ _ (GetCoreClient_ok start _ _ Hk1 Hc1)).
  cbn [start trace clock app].
  rewrite (bind_run _ _ _ _ _
             (GetInstallConfig_read (mkWorld 0 [CallGetConfig; CallNewForConfig])
                _ _ Hk2 Hc2)).
  cbn [start trace clock length app]. rewrite Hcm, Hdec.
  unfold Secrets at 1. run_call.
  cbn [trace clock length].
  change (mkWorld 0 (_ ++ [CallSecretsGet ns user])) with afterUser.
  destruct (Secrets_Get cluster 5 ns user) as [sec|err].
  - unfold extracted.
    destruct (Secret_Data sec !! "REGISTRY_STORAGE_S3_ACCESSKEY") as [a|];
      [|reflexivity].
    destruct (Secret_Data sec !! "REGISTRY_STORAGE_S3_SECRETKEY") as [s|];
      [|reflexivity].
    unfold ret. rewrite config_built. reflexivity.
  - destruct (IsNotFound err); [|reflexivity].
    unfold bind at 1.
    destruct (wait.PollImmediate _ _ _ _) as [[e|] w]; [reflexivity|].
    unfold Secrets. run_call.
    change (mkWorld (clock w) (trace w ++ [CallSecretsGet ns cloudCredentialsName]))
      with (tried ns w).
    destruct (Secrets_Get cluster _ ns cloudCredentialsName) as [sec|err'];
      [|reflexivity].
    unfold extracted.
    destruct (Secret_Data sec !! "aws_access_key_id") as [a|]; [|reflexivity].
    destruct (Secret_Data sec !! "aws_secret_access_key") as [s|]; [|reflexivity].
    unfold ret. rewrite config_built. reflexivity.
Qed.

Local Abbreviation userSecretRead := (userSecretRead ns user cluster).
Local Abbreviation userSecretNotFound := (userSecretNotFound ns user cluster).
Local Abbreviation systemSecretRead := (systemSecretRead ns cluster).
Local Abbreviation systemSecretAbsent := (systemSecretAbsent ns cluster).
Local Abbreviation systemSecretPresent := (systemSecretPresent ns cluster).
Local Abbreviation userCall := (userCall ns user).
Local Abbreviation systemCall := (systemCall ns).
Local Abbreviation polled := (polled ns (1 * Second)).

Lemma ticks_eq : Z.to_nat (5 * Minute / (1 * Second)) = 300%nat.
Proof. reflexivity. Qed.

Lemma clock_polled (m : nat) : clock (polled m afterUser) = Z.of_nat m * Second.
Proof. unfold clusterconfig.polled. cbn [clock clusterconfig.afterUser]. lia. Qed.

Lemma trace_polled (m : nat) :
  trace (polled m afterUser) = installCalls ++ userCall :: repeat systemCall (S m).
Proof.
  unfold clusterconfig.polled, clusterconfig.afterUser. cbn [trace].
  rewrite <- app_assoc. reflexivity.
Qed.

Lemma length_polled (m : nat) : length (trace (polled m afterUser)) = (7 + m)%nat.
Proof.
  rewrite trace_polled, length_app. cbn [length installCalls].
  rewrite repeat_length. lia.
Qed.

(** The fallback when the check after [m] fruitless ones finds the system
    secret: the secret is read once more and the keys are taken from that
    read. *)
Lemma fallback_found (ic : InstallConfig) (m : nat) (sec0 : Secret) :
  installConfigRead ic ->
  userSecretNotFound ->
  (m <= 300)%nat ->
  (forall i, (i < m)%nat -> systemSecretAbsent (6 + i)) ->
  systemSecretRead (6 + m) (Ok sec0) ->
  GetAWSConfig start =
  (match Secrets_Get cluster (7 + m) ns cloudCredentialsName with
   | Err err =>
       Err (errorString
              ("unable to get secret " +:+
               fmt_q (qualified installerConfigNamespace cloudCredentialsName) +:+
               ": " +:+ Error err))
   | Ok sec =>
       extracted (qualified installerConfigNamespace cloudCredentialsName)
         "aws_access_key_id" "aws_secret_access_key" (regionOf ic) sec
   end, tried ns (polled m afterUser)).
Proof.
  intros Hic (err & Hu & Hnf) Hm Habs Hread.
  destruct (GetAWSConfig_eq ic Hic) as (client & ->).
  unfold clusterconfig.userSecretRead in Hu. rewrite Hu, Hnf.
  rewrite (PollImmediate_decide ns cluster client (1 * Second) (5 * Minute) m afterUser);
    [|rewrite ticks_eq; exact Hm|exact Habs].
  change (length (trace afterUser)) with 6%nat.
  unfold clusterconfig.systemSecretRead in Hread. rewrite Hread.
  rewrite length_polled.
  destruct (Secrets_Get cluster (7 + m) ns cloudCredentialsName); reflexivity.
Qed.

(** The fallback when a check fails with another error than not-found. *)
Lemma fallback_fatal (ic : InstallConfig) (m : nat) (e : error) :
  installConfigRead ic ->
  userSecretNotFound ->
  (m <= 300)%nat ->
  (forall i, (i < m)%nat -> systemSecretAbsent (6 + i)) ->
  systemSecretRead (6 + m) (Err e) ->
  IsNotFound e = false ->
  GetAWSConfig start = (Err e, polled m afterUser).
Proof.
  intros Hic (err & Hu & Hnf) Hm Habs Hread He.
  destruct (GetAWSConfig_eq ic Hic) as (client & ->).
  unfold clusterconfig.userSecretRead in Hu. rewrite Hu, Hnf.
  rewrite (PollImmediate_decide ns cluster client (1 * Second) (5 * Minute) m afterUser);
    [|rewrite ticks_eq; exact Hm|exact Habs].
  change (length (trace afterUser)) with 6%nat.
  unfold clusterconfig.systemSecretRead in Hread. rewrite Hread, He. reflexivity.
Qed.

(** The fallback when no check up to the ceiling finds the secret. *)
Lemma fallback_timeout (ic : InstallConfig) :
  installConfigRead ic ->
  userSecretNotFound ->
  (forall i, (i < 301)%nat -> systemSecretAbsent (6 + i)) ->
  GetAWSConfig start = (Err ErrWaitTimeout, polled 300 afterUser).
Proof.
  intros Hic (err & Hu & Hnf) Habs.
  destruct (GetAWSConfig_eq ic Hic) as (client & ->).
  unfold clusterconfig.userSecretRead in Hu. rewrite Hu, Hnf.
  rewrite (PollImmediate_decide ns cluster client (1 * Second) (5 * Minute) 300 afterUser);
    [|rewrite ticks_eq; lia|intros i Hi; apply Habs; lia].
  change (length (trace afterUser)) with 6%nat.
  destruct (Habs 300%nat) as (e & Hread & He); [lia|].
  unfold clusterconfig.systemSecretRead in Hread. rewrite Hread, He.
  rewrite ticks_eq, Nat.sub_diag. reflexivity.
Qed.

(** With both keys in the secret read after the poll, the fallback
    succeeds with the values of that secret. *)
Lemma fallback_success (ic : InstallConfig) (m : nat) (sec0 sec : Secret)
    (a s : list Byte.byte) :
  installConfigRead ic ->
  userSecretNotFound ->
  (m <= 300)%nat ->
  (forall i, (i < m)%nat -> systemSecretAbsent (6 + i)) ->
  systemSecretRead (6 + m) (Ok sec0) ->
  systemSecretRead (7 + m) (Ok sec) ->
  Secret_Data sec !! "aws_access_key_id" = Some a ->
  Secret_Data sec !! "aws_secret_access_key" = Some s ->
  GetAWSConfig start =
  (Ok (s3Config (string_of_list_byte a) (string_of_list_byte s) (regionOf ic)),
   tried ns (polled m afterUser)).
Proof.
  intros Hic Hu Hm Habs Hread0 Hread Ha Hs.
  rewrite (fallback_found ic m sec0 Hic Hu Hm Habs Hread0).
  unfold clusterconfig.systemSecretRead in Hread. rewrite Hread.
  unfold extracted. rewrite Ha, Hs. reflexivity.
Qed.

Lemma user_success (ic : InstallConfig) (sec : Secret) (a s : list Byte.byte) :
  installConfigRead ic ->
  userSecretRead (Ok sec) ->
  Secret_Data sec !! "REGISTRY_STORAGE_S3_ACCESSKEY" = Some a ->
  Secret_Data sec !! "REGISTRY_STORAGE_S3_SECRETKEY" = Some s ->
  GetAWSConfig start =
  (Ok (s3Config (string_of_list_byte a) (string_of_list_byte s) (regionOf ic)),
   afterUser).
Proof.
  intros Hic Hu Ha Hs.
  destruct (GetAWSConfig_eq ic Hic) as (client & ->).
  unfold clusterconfig.userSecretRead in Hu. rewrite Hu.
  unfold extracted. rewrite Ha, Hs. reflexivity.
Qed.

Lemma trace_tried_polled (m : nat) :
  trace (tried ns (polled m afterUser)) =
  installCalls ++ userCall :: repeat systemCall (S (S m)).
Proof.
  unfold clusterconfig.tried. cbn [trace]. rewrite trace_polled, <- app_assoc.
  f_equal. cbn [app]. f_equal. rewrite <- repeat_cons. reflexivity.
Qed.

(** A run that succeeds has read the install configuration. *)
Lemma GetAWSConfig_ok_inv (cfg : Config) (w : World) :
  GetAWSConfig start = (Ok cfg, w) -> exists ic, installConfigRead ic.
Proof.
  unfold clusterconfig.GetAWSConfig. unfold bind at 1. rewrite GetCoreClient_eq.
  cbn [start trace clock length app].
  destruct (regopclient_GetConfig cluster 0) as [k1|] eqn:Hk1; [|discriminate].
  destruct (coreset_NewForConfig cluster 1 k1) as [c1|] eqn:Hc1; [|discriminate].
  unfold bind at 1. unfold clusterconfig.GetInstallConfig. unfold bind at 1.
  rewrite GetCoreClient_eq. cbn [trace clock length app].
  destruct (regopclient_GetConfig cluster 2) as [k2|] eqn:Hk2; [|discriminate].
  destruct (coreset_NewForConfig cluster 3 k2) as [c2|] eqn:Hc2; [|discriminate].
  unfold ConfigMaps. run_call. cbn [trace clock length app].
  destruct (ConfigMaps_Get cluster 4 _ _) as [cm|] eqn:Hcm; [|discriminate].
  destruct (yaml_Decode _) as [ic|] eqn:Hdec; [|discriminate].
  intros _. exists ic, k1, c1, k2, c2, cm. repeat split; assumption.
Qed.

(** Once the install configuration is read, the user-defined secret is
    asked for. *)
Lemma GetAWSConfig_asks_user_secret (ic : InstallConfig) :
  installConfigRead ic ->
  exists rest, trace (snd (GetAWSConfig start)) = installCalls ++ userCall :: rest.
Proof.
  intros Hic. destruct (GetAWSConfig_eq ic Hic) as (client & ->).
  assert (Hhere : trace afterUser = installCalls ++ [userCall]) by reflexivity.
  destruct (Secrets_Get cluster 5 ns user) as [sec|err]; [exists []; exact Hhere|].
  destruct (IsNotFound err); [|exists []; exact Hhere].
  destruct (PollImmediate_extends ns cluster client (1 * Second) (5 * Minute) afterUser)
    as (n & Hn).
  destruct (wait.PollImmediate _ _ _ _) as [[e|] w]; cbn [snd] in *.
  - exists (repeat systemCall n). rewrite Hn, Hhere, <- app_assoc. reflexivity.
  - exists (repeat systemCall n ++ [systemCall]).
    assert (Hw : trace (tried ns w) =
                 installCalls ++ userCall :: repeat systemCall n ++ [systemCall]).
    { unfold clusterconfig.tried. cbn [trace]. rewrite Hn, Hhere, <- !app_assoc.
      reflexivity. }
    destruct (Secrets_Get cluster _ ns cloudCredentialsName); exact Hw.
Qed.

Lemma installCalls_noSecretLookup : noSecretLookup (mkWorld 0 installCalls).
Proof.
  intros c Hin. cbn in Hin.
  repeat (destruct Hin as [<-|Hin]; [reflexivity|]). destruct Hin.
Qed.

(** A user-defined secret that lacks a key: the error names the key and
    the secret as it was read, namespace and name. *)
Lemma user_missing_key (ic : InstallConfig) (sec : Secret) :
  installConfigRead ic ->
  userSecretRead (Ok sec) ->
  (Secret_Data sec !! "REGISTRY_STORAGE_S3_ACCESSKEY" = None ->
   GetAWSConfig start =
   (Err (missingKey (qualified ns user) "REGISTRY_STORAGE_S3_ACCESSKEY"), afterUser))
  /\
  (forall a,
     Secret_Data sec !! "REGISTRY_STORAGE_S3_ACCESSKEY" = Some a ->
     Secret_Data sec !! "REGISTRY_STORAGE_S3_SECRETKEY" = None ->
     GetAWSConfig start =
     (Err (missingKey (qualified ns user) "REGISTRY_STORAGE_S3_SECRETKEY"), afterUser)).
Proof.
  intros Hic Hu. destruct (GetAWSConfig_eq ic Hic) as (client & ->).
  unfold clusterconfig.userSecretRead in Hu. rewrite Hu. unfold extracted. split.
  - intros ->. reflexivity.
  - intros a -> ->. reflexivity.
Qed.

(** A system secret that lacks a key: the error names the key, and as
    the secret [kube-system/installer-cloud-credentials], whatever the
    namespace [ns] the secret was read in. *)
Lemma system_missing_key (ic : InstallConfig) (m : nat) (sec0 sec : Secret) :
  installConfigRead ic ->
  userSecretNotFound ->
  (m <= 300)%nat ->
  (forall i, (i < m)%nat -> systemSecretAbsent (6 + i)) ->
  systemSecretRead (6 + m) (Ok sec0) ->
  systemSecretRead (7 + m) (Ok sec) ->
  (Secret_Data sec !! "aws_access_key_id" = None ->
   fst (GetAWSConfig start) =
   Err (missingKey (qualified "kube-system" "installer-cloud-credentials")
          "aws_access_key_id"))
  /\
  (forall a,
     Secret_Data sec !! "aws_access_key_id" = Some a ->
     Secret_Data sec !! "aws_secret_access_key" = None ->
     fst (GetAWSConfig start) =
     Err (missingKey (qualified "kube-system" "installer-cloud-credentials")
            "aws_secret_access_key")).
Proof.
  intros Hic Hu Hm Habs Hread0 Hread.
  rewrite (fallback_found ic m sec0 Hic Hu Hm Habs Hread0).
  unfold clusterconfig.systemSecretRead in Hread. rewrite Hread.
  unfold extracted. split.
  - intros ->. reflexivity.
  - intros a -> ->. reflexivity.
Qed.

(** ** The claims about [GetAWSConfig] *)

(** C1. With an install descriptor whose AWS block has region [R], and a
    user-defined secret that holds both [REGISTRY_STORAGE_S3_ACCESSKEY] and
    [REGISTRY_STORAGE_S3_SECRETKEY], [GetAWSConfig] succeeds with storage
    type [s3], the two values of the secret as access key and secret key,
    and region [R]. *)
Theorem GetAWSConfig_user_secret (ic : InstallConfig) (R : string)
    (sec : Secret) (a s : list Byte.byte) :
  installConfigRead ic ->
  AWS (InstallConfig_Platform ic) = Some (mkAWSPlatform R) ->
  userSecretRead (Ok sec) ->
  Secret_Data sec !! "REGISTRY_STORAGE_S3_ACCESSKEY" = Some a ->
  Secret_Data sec !! "REGISTRY_STORAGE_S3_SECRETKEY" = Some s ->
  exists cfg w,
    GetAWSConfig start = (Ok cfg, w) /\
    Type_ (Config_Storage cfg) = "s3" /\
    AccessKey (S3_of cfg) = string_of_list_byte a /\
    SecretKey (S3_of cfg) = string_of_list_byte s /\
    Region (S3_of cfg) = R.
Proof.
  intros Hic Haws Hu Ha Hs.
  eexists _, _. split; [apply (user_success ic sec a s); assumption|].
  unfold regionOf. rewrite Haws. repeat split; reflexivity.
Qed.


(** C4. In the fallback the poll checks at once and then every second up
    to five minutes, 301 checks in all; check [k] is call [5 + k].  If the
    system secret is absent at the first [k-1] checks and there at check
    [k], [GetAWSConfig] succeeds after [k-1] seconds of waiting; if it is
    absent at all 301 checks, [GetAWSConfig] fails with [ErrWaitTimeout]
    when the clock is at five minutes, after exactly 301 checks. *)
Theorem GetAWSConfig_poll_bounded (ic : InstallConfig) :
  installConfigRead ic ->
  userSecretNotFound ->
  (forall (k : nat) (sec : Secret) (a s : list Byte.byte),
      (1 <= k <= maxChecks)%nat ->
      (forall j, (1 <= j < k)%nat -> systemSecretAbsent (5 + j)) ->
      systemSecretPresent (5 + k) sec ->
      Secret_Data sec !! "aws_access_key_id" = Some a ->
      Secret_Data sec !! "aws_secret_access_key" = Some s ->
      exists cfg w,
        GetAWSConfig start = (Ok cfg, w) /\
        AccessKey (S3_of cfg) = string_of_list_byte a /\
        SecretKey (S3_of cfg) = string_of_list_byte s /\
        clock w = (Z.of_nat k - 1) * Second /\
        trace w = installCalls ++ userCall :: repeat systemCall k ++ [systemCall])
  /\
  ((forall j, (1 <= j <= maxChecks)%nat -> systemSecretAbsent (5 + j)) ->
   exists w,
     GetAWSConfig start = (Err ErrWaitTimeout, w) /\
     clock w = 5 * Minute /\
     trace w = installCalls ++ userCall :: repeat systemCall maxChecks).
Proof.
  intros Hic Hu. rewrite maxChecks_eq. split.
  - intros k sec a s Hk Habs [Hread Hread'] Ha Hs.
    destruct k as [|m]; [lia|].
    eexists _, _. split.
    + apply (fallback_success ic m sec sec a s); try assumption; [lia|].
      intros i Hi. apply (Habs (S i)). lia.
    + split; [reflexivity|]. split; [reflexivity|]. split.
      * cbn [clusterconfig.tried clock]. rewrite clock_polled. lia.
      * rewrite trace_tried_polled. f_equal. f_equal.
        rewrite <- repeat_cons. reflexivity.
  - intros Habs. eexists. split.
    + apply (fallback_timeout ic); try assumption.
      intros i Hi. apply (Habs (S i)). lia.
    + split; [rewrite clock_polled; reflexivity|apply trace_polled].
Qed.

(** C5. An error other than not-found from a read of a secret ends the
    run with that very error.  From the read of the user-defined secret:
    no system secret is asked for.  From a check of the poll, the earlier
    checks having found nothing: no later check is made, whatever number of
    checks would still fit under the ceiling. *)
Theorem GetAWSConfig_fatal_lookup_error (ic : InstallConfig) (e : error) :
  installConfigRead ic ->
  IsNotFound e = false ->
  (userSecretRead (Err e) ->
   exists w,
     GetAWSConfig start = (Err e, w) /\
     clock w = 0 /\
     trace w = installCalls ++ [userCall])
  /\
  (forall k : nat,
      userSecretNotFound ->
      (1 <= k <= maxChecks)%nat ->
      (forall j, (1 <= j < k)%nat -> systemSecretAbsent (5 + j)) ->
      systemSecretRead (5 + k) (Err e) ->
      exists w,
        GetAWSConfig start = (Err e, w) /\
        clock w = (Z.of_nat k - 1) * Second /\
        trace w = installCalls ++ userCall :: repeat systemCall k).
Proof.
  intros Hic He. split.
  - intros Hu. exists afterUser.
    destruct (GetAWSConfig_eq ic Hic) as (client & ->).
    unfold clusterconfig.userSecretRead in Hu. rewrite Hu, He.
    repeat split; reflexivity.
  - intros k Hu Hk Habs Hread. rewrite maxChecks_eq in Hk.
    destruct k as [|m]; [lia|].
    eexists. split.
    + apply (fallback_fatal ic m e); try assumption; [lia|].
      intros i Hi. apply (Habs (S i)). lia.
    + split; [rewrite clock_polled; lia|apply trace_polled].
Qed.

(** C10. Presence of the key is what counts, not its value: a secret
    whose two required keys are there succeeds whatever the values, and a
    key that maps to the empty byte string gives the empty string as
    access key or secret key.  This holds for the user-defined secret and
    for the system secret of the fallback. *)
Theorem GetAWSConfig_empty_value_accepted (ic : InstallConfig)
    (sec : Secret) (a s : list Byte.byte) :
  installConfigRead ic ->
  (userSecretRead (Ok sec) ->
   Secret_Data sec !! "REGISTRY_STORAGE_S3_ACCESSKEY" = Some a ->
   Secret_Data sec !! "REGISTRY_STORAGE_S3_SECRETKEY" = Some s ->
   exists cfg w,
     GetAWSConfig start = (Ok cfg, w) /\
     AccessKey (S3_of cfg) = string_of_list_byte a /\
     SecretKey (S3_of cfg) = string_of_list_byte s /\
     (a = [] -> AccessKey (S3_of cfg) = "") /\
     (s = [] -> SecretKey (S3_of cfg) = ""))
  /\
  (forall k : nat,
      userSecretNotFound ->
      (1 <= k <= maxChecks)%nat ->
      (forall j, (1 <= j < k)%nat -> systemSecretAbsent (5 + j)) ->
      systemSecretPresent (5 + k) sec ->
      Secret_Data sec !! "aws_access_key_id" = Some a ->
      Secret_Data sec !! "aws_secret_access_key" = Some s ->
      exists cfg w,
        GetAWSConfig start = (Ok cfg, w) /\
        AccessKey (S3_of cfg) = string_of_list_byte a /\
        SecretKey (S3_of cfg) = string_of_list_byte s /\
        (a = [] -> AccessKey (S3_of cfg) = "") /\
        (s = [] -> SecretKey (S3_of cfg) = "")).
Proof.
  intros Hic. split.
  - intros Hu Ha Hs. eexists _, _.
    split; [apply (user_success ic sec a s); assumption|].
    repeat split; try reflexivity; intros ->; reflexivity.
  - intros k Hu Hk Habs [Hread Hread'] Ha Hs. rewrite maxChecks_eq in Hk.
    destruct k as [|m]; [lia|].
    eexists _, _. split.
    + apply (fallback_success ic m sec sec a s); try assumption; [lia|].
      intros i Hi. apply (Habs (S i)). lia.
    + repeat split; try reflexivity; intros ->; reflexivity.
Qed.

(** C7. When the read of the ConfigMap fails, or its payload does not
    decode, [GetAWSConfig] returns the error of [GetInstallConfig] and the
    run ends there: the trace holds the five calls up to the ConfigMap and
    no read of a secret. *)
Theorem GetAWSConfig_install_failure_first (k1 k2 : rest_Config)
    (c1 c2 : CoreV1Client) (e : error) :
  regopclient_GetConfig cluster 0 = Ok k1 ->
  coreset_NewForConfig cluster 1 k1 = Ok c1 ->
  regopclient_GetConfig cluster 2 = Ok k2 ->
  coreset_NewForConfig cluster 3 k2 = Ok c2 ->
  (ConfigMaps_Get cluster 4 installerConfigNamespace installerConfigName = Err e ->
   exists w,
     GetAWSConfig start =
       (Err (errorString
               ("unable to read cluster install configuration: " +:+ Error e)), w) /\
     trace w = installCalls /\ noSecretLookup w)
  /\
  (forall cm,
     ConfigMaps_Get cluster 4 installerConfigNamespace installerConfigName = Ok cm ->
     yaml_Decode (default "" (ConfigMap_Data cm !! "install-config")) = Err e ->
     exists w,
       GetAWSConfig start =
         (Err (errorString
                 ("unable to decode cluster install configuration: " +:+ Error e)), w) /\
       trace w = installCalls /\ noSecretLookup w).
Proof.
  intros Hk1 Hc1 Hk2 Hc2.
  split.
  - intros Hcm. exists (mkWorld 0 installCalls).
    split; [|split; [reflexivity|apply installCalls_noSecretLookup]].
    unfold clusterconfig.GetAWSConfig.
    rewrite (bind_run _ _ _ _ _ (GetCoreClient_ok start _ _ Hk1 Hc1)).
    cbn [start trace clock app].
    rewrite (bind_run _ _ _ _ _
               (GetInstallConfig_read (mkWorld 0 [CallGetConfig; CallNewForConfig])
                  _ _ Hk2 Hc2)).
    cbn [trace clock length app]. rewrite Hcm. reflexivity.
  - intros cm Hcm Hdec. exists (mkWorld 0 installCalls).
    split; [|split; [reflexivity|apply installCalls_noSecretLookup]].
    unfold clusterconfig.GetAWSConfig.
    rewrite (bind_run _ _ _ _ _ (GetCoreClient_ok start _ _ Hk1 Hc1)).
    cbn [start trace clock app].
    rewrite (bind_run _ _ _ _ _
               (GetInstallConfig_read (mkWorld 0 [CallGetConfig; CallNewForConfig])
                  _ _ Hk2 Hc2)).
    cbn [trace clock length app]. rewrite Hcm, Hdec. reflexivity.
Qed.

(** C8. The region of a configuration [GetAWSConfig] returns is the
    region field of the AWS block of the install descriptor when the block
    is there, and the empty string when it is not.  The missing block is no
    error: the run goes on to ask for the user-defined secret, and with a
    complete secret it succeeds with the empty region. *)
Theorem GetAWSConfig_region (ic : InstallConfig) :
  installConfigRead ic ->
  (forall cfg w,
     GetAWSConfig start = (Ok cfg, w) ->
     Region (S3_of cfg) =
       match AWS (InstallConfig_Platform ic) with
       | Some aws => AWS_Region aws
       | None => ""
       end)
  /\
  (AWS (InstallConfig_Platform ic) = None ->
   (exists rest,
      trace (snd (GetAWSConfig start)) = installCalls ++ userCall :: rest) /\
   (forall sec a s,
      userSecretRead (Ok sec) ->
      Secret_Data sec !! "REGISTRY_STORAGE_S3_ACCESSKEY" = Some a ->
      Secret_Data sec !! "REGISTRY_STORAGE_S3_SECRETKEY" = Some s ->
      exists cfg w,
        GetAWSConfig start = (Ok cfg, w) /\ Region (S3_of cfg) = "")).
Proof.
  intros Hic. split.
  - intros cfg w Hrun. fold (regionOf ic).
    destruct (GetAWSConfig_eq ic Hic) as (client & Heq). rewrite Heq in Hrun.
    unfold extracted in Hrun.
    destruct (Secrets_Get cluster 5 ns user) as [sec|err].
    + destruct (Secret_Data sec !! _); [|discriminate].
      destruct (Secret_Data sec !! _); [|discriminate].
      injection Hrun as <- _. reflexivity.
    + destruct (IsNotFound err); [|discriminate].
      destruct (wait.PollImmediate _ _ _ _) as [[e|] w']; [discriminate|].
      destruct (Secrets_Get cluster _ ns cloudCredentialsName) as [sec|];
        [|discriminate].
      destruct (Secret_Data sec !! _); [|discriminate].
      destruct (Secret_Data sec !! _); [|discriminate].
      injection Hrun as <- _. reflexivity.
  - intros Hnone. split; [apply (GetAWSConfig_asks_user_secret ic Hic)|].
    intros sec a s Hu Ha Hs. eexists _, _.
    split; [apply (user_success ic sec a s); assumption|].
    unfold regionOf. rewrite Hnone. reflexivity.
Qed.

(** C9. A configuration is returned only with both credentials resolved:
    whenever [GetAWSConfig] succeeds, the secret it used, the user-defined
    one or else the system one read last, holds both of its required keys,
    and the access key and the secret key of the result are their values. *)
Theorem GetAWSConfig_success_full_credentials (cfg : Config) (w : World) :
  GetAWSConfig start = (Ok cfg, w) ->
  exists (sec : Secret) (a s : list Byte.byte),
    AccessKey (S3_of cfg) = string_of_list_byte a /\
    SecretKey (S3_of cfg) = string_of_list_byte s /\
    ((userSecretRead (Ok sec) /\
      Secret_Data sec !! "REGISTRY_STORAGE_S3_ACCESSKEY" = Some a /\
      Secret_Data sec !! "REGISTRY_STORAGE_S3_SECRETKEY" = Some s)
     \/
     (userSecretNotFound /\
      (exists t, trace w = t ++ [systemCall] /\
                 systemSecretRead (length t) (Ok sec)) /\
      Secret_Data sec !! "aws_access_key_id" = Some a /\
      Secret_Data sec !! "aws_secret_access_key" = Some s)).
Proof.
  intros Hrun. destruct (GetAWSConfig_ok_inv cfg w Hrun) as (ic & Hic).
  destruct (GetAWSConfig_eq ic Hic) as (client & Heq). rewrite Heq in Hrun.
  unfold extracted in Hrun.
  destruct (Secrets_Get cluster 5 ns user) as [sec|err] eqn:Hu.
  - destruct (Secret_Data sec !! _) as [a|] eqn:Ha; [|discriminate].
    destruct (Secret_Data sec !! "REGISTRY_STORAGE_S3_SECRETKEY") as [s|] eqn:Hs;
      [|discriminate].
    injection Hrun as <- _. exists sec, a, s.
    split; [reflexivity|]. split; [reflexivity|]. left. repeat split; assumption.
  - destruct (IsNotFound err) eqn:Hnf; [|discriminate].
    destruct (wait.PollImmediate _ _ _ _) as [[e|] w']; [discriminate|].
    destruct (Secrets_Get cluster _ ns cloudCredentialsName) as [sec|] eqn:Hread;
      [|discriminate].
    destruct (Secret_Data sec !! _) as [a|] eqn:Ha; [|discriminate].
    destruct (Secret_Data sec !! "aws_secret_access_key") as [s|] eqn:Hs;
      [|discriminate].
    injection Hrun as <- <-. exists sec, a, s.
    split; [reflexivity|]. split; [reflexivity|]. right.
    split; [exists err; split; assumption|].
    split; [|split; assumption].
    exists (trace w'). split; [reflexivity|exact Hread].
Qed.

End Resolution.

(** ** [GetGCSConfig] *)

(** C6. [GetGCSConfig] succeeds in every world with storage type [gcs]
    and every other field empty, and it leaves the world as it was: no
    call is added to the trace, so neither a secret nor a ConfigMap is
    read. *)
Theorem GetGCSConfig_tag_only (w : World) :
  GetGCSConfig w =
  (Ok (mkConfig (mkStorage "gcs"
                   (mkAzure "" "" "") (mkGCS "" "") (mkS3 "" "" "" ""))), w).
Proof. reflexivity. Qed.

(** ** The name in the errors of the fallback *)

(** C3. A system secret that lacks [aws_access_key_id] is read in the
    operator namespace, three calls in all for the secrets, and the error
    names the key and [kube-system/installer-cloud-credentials]: not the
    secret that was read, and in this cluster a secret that does not
    exist. *)
Theorem GetAWSConfig_system_secret_misnamed :
  GetAWSConfig sampleNamespace sampleUser sampleDecode keylessCluster start =
    (Err (missingKey "kube-system/installer-cloud-credentials" "aws_access_key_id"),
     mkWorld 0
       (installCalls ++
        [CallSecretsGet "openshift-image-registry"
           "image-registry-private-configuration-user";
         CallSecretsGet "openshift-image-registry" "installer-cloud-credentials";
         CallSecretsGet "openshift-image-registry" "installer-cloud-credentials"]))
  /\ missingKey "kube-system/installer-cloud-credentials" "aws_access_key_id"
     <> missingKey (qualified "openshift-image-registry" "installer-cloud-credentials")
          "aws_access_key_id"
  /\ Secrets_Get keylessCluster 7 "openshift-image-registry"
       "installer-cloud-credentials" = Ok keylessSecret
  /\ Secrets_Get keylessCluster 7 "kube-system" "installer-cloud-credentials"
     = Err notFound.
Proof.
  split; [vm_compute; reflexivity|].
  split; [vm_compute; discriminate|].
  split; vm_compute; reflexivity.
Qed.

(** ** The theorems at sample clusters *)

Lemma sample_installConfigRead (ic : InstallConfig) (payload : string)
    (secrets : nat -> string -> string -> result Secret) :
  sampleDecode payload = Ok ic ->
  installConfigRead sampleDecode (sampleCluster (withPayload payload) secrets) ic.
Proof.
  intros Hdec.
  exists sampleKubeconfig, sampleClient, sampleKubeconfig, sampleClient,
    (mkConfigMap {[ "install-config" := payload ]}).
  repeat split; try reflexivity.
  cbn [ConfigMap_Data]. rewrite lookup_singleton_eq. exact Hdec.
Defined.

Lemma GetAWSConfig_user_secret_witness :
  exists cfg w,
    GetAWSConfig sampleNamespace sampleUser sampleDecode
      (sampleCluster awsInstall (userOnly sampleUserSecret)) start = (Ok cfg, w) /\
    Type_ (Config_Storage cfg) = "s3" /\
    AccessKey (S3_of cfg) = "AKIDEXAMPLE" /\
    SecretKey (S3_of cfg) = "s3cr3t" /\
    Region (S3_of cfg) = "us-east-1".
Proof.
  apply (GetAWSConfig_user_secret sampleNamespace sampleUser sampleDecode
           (sampleCluster awsInstall (userOnly sampleUserSecret))
           awsDescriptor "us-east-1" sampleUserSecret
           (list_byte_of_string "AKIDEXAMPLE") (list_byte_of_string "s3cr3t")).
  - apply sample_installConfigRead. reflexivity.
  - reflexivity.
  - reflexivity.
  - vm_compute. reflexivity.
  - vm_compute. reflexivity.
Defined.

Lemma sample_userSecretNotFound (cm : result ConfigMap) (n : nat) (sec : Secret) :
  userSecretNotFound sampleNamespace sampleUser (sampleCluster cm (systemFrom n sec)).
Proof. exists notFound. split; reflexivity. Defined.


(** The system secret appears at the third check, which is call 8; and a
    cluster in which it never appears. *)
Lemma GetAWSConfig_poll_bounded_witness :
  (exists cfg w,
     GetAWSConfig sampleNamespace sampleUser sampleDecode
       (sampleCluster awsInstall (systemFrom 8 sampleSystemSecret)) start = (Ok cfg, w) /\
     AccessKey (S3_of cfg) = "AKIDSYSTEM" /\
     SecretKey (S3_of cfg) = "syst3m" /\
     clock w = 2 * Second /\
     trace w = installCalls ++ userCall sampleNamespace sampleUser ::
               repeat (systemCall sampleNamespace) 3 ++ [systemCall sampleNamespace])
  /\
  (exists w,
     GetAWSConfig sampleNamespace sampleUser sampleDecode
       (sampleCluster awsInstall noSecrets) start = (Err ErrWaitTimeout, w) /\
     clock w = 5 * Minute /\
     trace w = installCalls ++ userCall sampleNamespace sampleUser ::
               repeat (systemCall sampleNamespace) maxChecks).
Proof.
  split.
  - apply (proj1 (GetAWSConfig_poll_bounded sampleNamespace sampleUser sampleDecode
             (sampleCluster awsInstall (systemFrom 8 sampleSystemSecret)) awsDescriptor
             (sample_installConfigRead awsDescriptor "aws: us-east-1" _ eq_refl)
             (sample_userSecretNotFound _ _ _))
           3%nat sampleSystemSecret
           (list_byte_of_string "AKIDSYSTEM") (list_byte_of_string "syst3m")).
    + rewrite maxChecks_eq. lia.
    + intros j Hj. exists notFound. split; [|reflexivity].
      destruct j as [|[|[|j]]]; try lia; reflexivity.
    + split; reflexivity.
    + vm_compute. reflexivity.
    + vm_compute. reflexivity.
  - apply (proj2 (GetAWSConfig_poll_bounded sampleNamespace sampleUser sampleDecode
             (sampleCluster awsInstall noSecrets) awsDescriptor
             (sample_installConfigRead awsDescriptor "aws: us-east-1" _ eq_refl)
             (ex_intro _ notFound (conj eq_refl eq_refl)))).
    intros j Hj. exists notFound. split; reflexivity.
Defined.

(** The user-defined secret is refused; and the third check of the poll
    is refused. *)
Lemma GetAWSConfig_fatal_lookup_error_witness :
  (exists w,
     GetAWSConfig sampleNamespace sampleUser sampleDecode
       (sampleCluster awsInstall (refusedAt 5)) start = (Err forbidden, w) /\
     clock w = 0 /\
     trace w = installCalls ++ [userCall sampleNamespace sampleUser])
  /\
  (exists w,
     GetAWSConfig sampleNamespace sampleUser sampleDecode
       (sampleCluster awsInstall (refusedAt 8)) start = (Err forbidden, w) /\
     clock w = (Z.of_nat 3 - 1) * Second /\
     trace w = installCalls ++ userCall sampleNamespace sampleUser ::
               repeat (systemCall sampleNamespace) 3).
Proof.
  split.
  - apply (proj1 (GetAWSConfig_fatal_lookup_error sampleNamespace sampleUser sampleDecode
             (sampleCluster awsInstall (refusedAt 5)) awsDescriptor forbidden
             (sample_installConfigRead awsDescriptor "aws: us-east-1" _ eq_refl) eq_refl)).
    reflexivity.
  - apply (proj2 (GetAWSConfig_fatal_lookup_error sampleNamespace sampleUser sampleDecode
             (sampleCluster awsInstall (refusedAt 8)) awsDescriptor forbidden
             (sample_installConfigRead awsDescriptor "aws: us-east-1" _ eq_refl) eq_refl) 3%nat).
    + exists notFound. split; reflexivity.
    + rewrite maxChecks_eq. lia.
    + intros j Hj. exists notFound. split; [|reflexivity].
      destruct j as [|[|[|j]]]; try lia; reflexivity.
    + reflexivity.
Defined.

(** The ConfigMap cannot be read; and its payload does not decode.  The
    user-defined secret is there in both clusters and is not asked for. *)
Lemma GetAWSConfig_install_failure_first_witness :
  (exists w,
     GetAWSConfig sampleNamespace sampleUser sampleDecode
       (sampleCluster (Err forbidden) (userOnly sampleUserSecret)) start =
       (Err (errorString
               ("unable to read cluster install configuration: " +:+ Error forbidden)),
        w) /\
     trace w = installCalls /\ noSecretLookup w)
  /\
  (exists w,
     GetAWSConfig sampleNamespace sampleUser sampleDecode
       (sampleCluster (withPayload "{") (userOnly sampleUserSecret)) start =
       (Err (errorString
               ("unable to decode cluster install configuration: " +:+
                "couldn't get version/kind; json parse error")), w) /\
     trace w = installCalls /\ noSecretLookup w).
Proof.
  split.
  - apply (proj1 (GetAWSConfig_install_failure_first sampleNamespace sampleUser
             sampleDecode (sampleCluster (Err forbidden) (userOnly sampleUserSecret))
             sampleKubeconfig sampleKubeconfig sampleClient sampleClient forbidden
             eq_refl eq_refl eq_refl eq_refl)).
    reflexivity.
  - apply (proj2 (GetAWSConfig_install_failure_first sampleNamespace sampleUser
             sampleDecode (sampleCluster (withPayload "{") (userOnly sampleUserSecret))
             sampleKubeconfig sampleKubeconfig sampleClient sampleClient
             (errorString "couldn't get version/kind; json parse error")
             eq_refl eq_refl eq_refl eq_refl)
           (mkConfigMap {[ "install-config" := "{" ]})).
    + reflexivity.
    + vm_compute. reflexivity.
Defined.

(** An install descriptor with the AWS block and one without it. *)
Lemma GetAWSConfig_region_witness :
  Region (S3_of (s3Config "AKIDEXAMPLE" "s3cr3t" "us-east-1")) = "us-east-1"
  /\
  (exists rest,
     trace (snd (GetAWSConfig sampleNamespace sampleUser sampleDecode
                   (sampleCluster libvirtInstall (userOnly sampleUserSecret)) start)) =
     installCalls ++ userCall sampleNamespace sampleUser :: rest)
  /\
  (exists cfg w,
     GetAWSConfig sampleNamespace sampleUser sampleDecode
       (sampleCluster libvirtInstall (userOnly sampleUserSecret)) start = (Ok cfg, w) /\
     Region (S3_of cfg) = "").
Proof.
  split; [|split].
  - apply (proj1 (GetAWSConfig_region sampleNamespace sampleUser sampleDecode
             (sampleCluster awsInstall (userOnly sampleUserSecret)) awsDescriptor
             (sample_installConfigRead awsDescriptor "aws: us-east-1" _ eq_refl))
           (s3Config "AKIDEXAMPLE" "s3cr3t" "us-east-1")
           (afterUser sampleNamespace sampleUser)).
    vm_compute. reflexivity.
  - apply (proj2 (GetAWSConfig_region sampleNamespace sampleUser sampleDecode
             (sampleCluster libvirtInstall (userOnly sampleUserSecret)) libvirtDescriptor
             (sample_installConfigRead libvirtDescriptor "libvirt" _ eq_refl))
           eq_refl).
  - apply (proj2 (proj2 (GetAWSConfig_region sampleNamespace sampleUser sampleDecode
             (sampleCluster libvirtInstall (userOnly sampleUserSecret)) libvirtDescriptor
             (sample_installConfigRead libvirtDescriptor "libvirt" _ eq_refl))
           eq_refl)
           sampleUserSecret
           (list_byte_of_string "AKIDEXAMPLE") (list_byte_of_string "s3cr3t")).
    + reflexivity.
    + vm_compute. reflexivity.
    + vm_compute. reflexivity.
Defined.

Lemma GetAWSConfig_success_full_credentials_witness :
  exists (sec : Secret) (a s : list Byte.byte),
    AccessKey (S3_of (s3Config "AKIDSYSTEM" "syst3m" "us-east-1")) =
      string_of_list_byte a /\
    SecretKey (S3_of (s3Config "AKIDSYSTEM" "syst3m" "us-east-1")) =
      string_of_list_byte s /\
    ((userSecretRead sampleNamespace sampleUser
        (sampleCluster awsInstall (systemFrom 8 sampleSystemSecret)) (Ok sec) /\
      Secret_Data sec !! "REGISTRY_STORAGE_S3_ACCESSKEY" = Some a /\
      Secret_Data sec !! "REGISTRY_STORAGE_S3_SECRETKEY" = Some s)
     \/
     (userSecretNotFound sampleNamespace sampleUser
        (sampleCluster awsInstall (systemFrom 8 sampleSystemSecret)) /\
      (exists t,
         trace (tried sampleNamespace
                  (polled sampleNamespace (1 * Second) 2
                     (afterUser sampleNamespace sampleUser))) =
         t ++ [systemCall sampleNamespace] /\
         systemSecretRead sampleNamespace
           (sampleCluster awsInstall (systemFrom 8 sampleSystemSecret))
           (length t) (Ok sec)) /\
      Secret_Data sec !! "aws_access_key_id" = Some a /\
      Secret_Data sec !! "aws_secret_access_key" = Some s)).
Proof.
  apply (GetAWSConfig_success_full_credentials sampleNamespace sampleUser sampleDecode
           (sampleCluster awsInstall (systemFrom 8 sampleSystemSecret))
           (s3Config "AKIDSYSTEM" "syst3m" "us-east-1")
           (tried sampleNamespace
              (polled sampleNamespace (1 * Second) 2
                 (afterUser sampleNamespace sampleUser)))).
  vm_compute. reflexivity.
Defined.

(** A user-defined secret with an empty access key, and a system secret
    with an empty secret key. *)
Lemma GetAWSConfig_empty_value_accepted_witness :
  (exists cfg w,
     GetAWSConfig sampleNamespace sampleUser sampleDecode
       (sampleCluster awsInstall (userOnly emptyAccessKeySecret)) start = (Ok cfg, w) /\
     AccessKey (S3_of cfg) = "" /\
     SecretKey (S3_of cfg) = "s3cr3t")
  /\
  (exists cfg w,
     GetAWSConfig sampleNamespace sampleUser sampleDecode
       (sampleCluster awsInstall (systemFrom 6 emptySecretKeySecret)) start = (Ok cfg, w) /\
     AccessKey (S3_of cfg) = "AKIDSYSTEM" /\
     SecretKey (S3_of cfg) = "").
Proof.
  split.
  - destruct (proj1 (GetAWSConfig_empty_value_accepted sampleNamespace sampleUser
             sampleDecode (sampleCluster awsInstall (userOnly emptyAccessKeySecret))
             awsDescriptor emptyAccessKeySecret [] (list_byte_of_string "s3cr3t")
             (sample_installConfigRead awsDescriptor "aws: us-east-1" _ eq_refl)))
      as (cfg & w & Hrun & _ & Hs & Hempty & _).
    + reflexivity.
    + vm_compute. reflexivity.
    + vm_compute. reflexivity.
    + exists cfg, w. split; [exact Hrun|]. split; [apply Hempty; reflexivity|exact Hs].
  - destruct (proj2 (GetAWSConfig_empty_value_accepted sampleNamespace sampleUser
             sampleDecode (sampleCluster awsInstall (systemFrom 6 emptySecretKeySecret))
             awsDescriptor emptySecretKeySecret (list_byte_of_string "AKIDSYSTEM") []
             (sample_installConfigRead awsDescriptor "aws: us-east-1" _ eq_refl))
           1%nat)
      as (cfg & w & Hrun & Ha & _ & _ & Hempty).
    + apply sample_userSecretNotFound.
    + rewrite maxChecks_eq. lia.
    + intros j Hj. lia.
    + split; reflexivity.
    + vm_compute. reflexivity.
    + vm_compute. reflexivity.
    + exists cfg, w. split; [exact Hrun|]. split; [exact Ha|apply Hempty; reflexivity].
Defined.

(** * Further properties of the package *)

(** ** More on the poll *)

Section PollFootprint.

Variable ns : string.
Variable cluster : Cluster.
Variable client : CoreV1Client.
Variable interval : Duration.

Local Abbreviation ready := (systemSecretReady ns cluster client).

Lemma ticked_waited_1 (w : World) : ticked ns interval w = waited ns interval 1 w.
Proof.
  rewrite <- (waited_0 ns interval (ticked ns interval w)). apply waited_S.
Qed.

Lemma waited_tried (n : nat) (w : World) :
  waited ns interval n (tried ns w) = polled ns interval n w.
Proof.
  unfold waited, polled, tried. cbn [clock trace repeat].
  rewrite <- app_assoc. reflexivity.
Qed.

(** The loop ends in the world of some number of ticks, no more than it
    was given. *)
Lemma WaitFor_waited (ticks : nat) (w : World) :
  exists n, (n <= ticks)%nat /\
            snd (wait.WaitFor interval ticks ready w) = waited ns interval n w.
Proof.
  revert w. induction ticks as [|ticks IH]; intros w.
  - exists 0%nat. split; [lia|]. rewrite waited_0. reflexivity.
  - rewrite WaitFor_S.
    destruct (Secrets_Get _ _ _ _) as [sec|err].
    + exists 1%nat. split; [lia|]. apply ticked_waited_1.
    + destruct (IsNotFound err).
      * destruct (IH (ticked ns interval w)) as (n & Hn & Heq).
        exists (S n). split; [lia|]. rewrite Heq. apply waited_S.
      * exists 1%nat. split; [lia|]. apply ticked_waited_1.
Qed.

Lemma PollImmediate_polled (timeout : Duration) (w : World) :
  exists n, (n <= Z.to_nat (timeout / interval))%nat /\
            snd (wait.PollImmediate interval timeout ready w) = polled ns interval n w.
Proof.
  rewrite PollImmediate_eq.
  destruct (Secrets_Get _ _ _ _) as [sec|err].
  - exists 0%nat. split; [lia|]. symmetry. apply polled_0.
  - destruct (IsNotFound err).
    + destruct (WaitFor_waited (Z.to_nat (timeout / interval)) (tried ns w))
        as (n & Hn & Heq).
      exists n. split; [exact Hn|]. rewrite Heq. apply waited_tried.
    + exists 0%nat. split; [lia|]. symmetry. apply polled_0.
Qed.

(** An error of the poll is never a not-found error. *)
Lemma WaitFor_error (ticks : nat) (w w' : World) (e : error) :
  wait.WaitFor interval ticks ready w = (Some e, w') -> IsNotFound e = false.
Proof.
  revert w. induction ticks as [|ticks IH]; intros w.
  - cbn. intros H. injection H as <- _. reflexivity.
  - rewrite WaitFor_S.
    destruct (Secrets_Get _ _ _ _) as [sec|err]; [discriminate|].
    destruct (IsNotFound err) eqn:Hnf.
    + apply IH.
    + intros H. injection H as <- _. exact Hnf.
Qed.

Lemma PollImmediate_error (timeout : Duration) (w w' : World) (e : error) :
  wait.PollImmediate interval timeout ready w = (Some e, w') -> IsNotFound e = false.
Proof.
  rewrite PollImmediate_eq.
  destruct (Secrets_Get _ _ _ _) as [sec|err]; [discriminate|].
  destruct (IsNotFound err) eqn:Hnf.
  - apply WaitFor_error.
  - intros H. injection H as <- _. exact Hnf.
Qed.

End PollFootprint.

(** ** [GetInstallConfig] *)

Section InstallConfiguration.

Variable yaml_Decode : string -> result InstallConfig.
Variable cluster : Cluster.

Local Abbreviation GetInstallConfig := (GetInstallConfig yaml_Decode cluster).

Lemma GetInstallConfig_eq (w : World) :
  GetInstallConfig w =
  match regopclient_GetConfig cluster (length (trace w)) with
  | Err err => (Err err, mkWorld (clock w) (trace w ++ [CallGetConfig]))
  | Ok k =>
      match coreset_NewForConfig cluster (S (length (trace w))) k with
      | Err err =>
          (Err err, mkWorld (clock w) (trace w ++ [CallGetConfig; CallNewForConfig]))
      | Ok c =>
          (match ConfigMaps_Get cluster (S (S (length (trace w))))
                   installerConfigNamespace installerConfigName with
           | Err err =>
               Err (errorString
                      ("unable to read cluster install configuration: " +:+ Error err))
           | Ok cm =>
               match yaml_Decode (default "" (ConfigMap_Data cm !! "install-config")) with
               | Err err =>
                   Err (errorString
                          ("unable to decode cluster install configuration: " +:+
                           Error err))
               | Ok installConfig => Ok installConfig
               end
           end, mkWorld (clock w) (trace w ++ readCalls))
      end
  end.
Proof.
  destruct (regopclient_GetConfig cluster (length (trace w))) as [k|err] eqn:Hk.
  - destruct (coreset_NewForConfig cluster (S (length (trace w))) k) as [c|err] eqn:Hc.
    + apply (GetInstallConfig_read yaml_Decode cluster w k c Hk Hc).
    + unfold clusterconfig.GetInstallConfig. unfold bind at 1.
      rewrite GetCoreClient_eq, Hk, Hc. reflexivity.
  - unfold clusterconfig.GetInstallConfig. unfold bind at 1.
    rewrite GetCoreClient_eq, Hk. reflexivity.
Qed.

(** X1. When the client cannot be built, [GetInstallConfig] returns the
    error of the step that failed as it is, without the wording it puts
    before the errors of the ConfigMap, and the ConfigMap is not read: the
    trace grows by the calls for the client only. *)
Theorem GetInstallConfig_client_error (w : World) (e : error) :
  (regopclient_GetConfig cluster (length (trace w)) = Err e ->
   GetInstallConfig w = (Err e, mkWorld (clock w) (trace w ++ [CallGetConfig])))
  /\
  (forall k,
     regopclient_GetConfig cluster (length (trace w)) = Ok k ->
     coreset_NewForConfig cluster (S (length (trace w))) k = Err e ->
     GetInstallConfig w =
     (Err e, mkWorld (clock w) (trace w ++ [CallGetConfig; CallNewForConfig]))).
Proof.
  split.
  - intros Hk. rewrite GetInstallConfig_eq, Hk. reflexivity.
  - intros k Hk Hc. rewrite GetInstallConfig_eq, Hk, Hc. reflexivity.
Qed.

(** X2. Once the client is built, an error of [GetInstallConfig] is a
    plain message: [errors.IsNotFound] is false on it, also when the
    ConfigMap itself was not found, and the message ends with the message
    of the error underneath. *)
Theorem GetInstallConfig_error_is_plain (w w' : World) (k : rest_Config)
    (c : CoreV1Client) (e : error) :
  regopclient_GetConfig cluster (length (trace w)) = Ok k ->
  coreset_NewForConfig cluster (S (length (trace w))) k = Ok c ->
  GetInstallConfig w = (Err e, w') ->
  IsNotFound e = false /\
  exists cause,
    e = errorString
          ("unable to read cluster install configuration: " +:+ Error cause) \/
    e = errorString
          ("unable to decode cluster install configuration: " +:+ Error cause).
Proof.
  intros Hk Hc. rewrite GetInstallConfig_eq, Hk, Hc.
  destruct (ConfigMaps_Get _ _ _ _) as [cm|cause].
  - destruct (yaml_Decode _) as [ic|cause]; [discriminate|].
    intros H. injection H as <- _. split; [reflexivity|].
    exists cause. right. reflexivity.
  - intros H. injection H as <- _. split; [reflexivity|].
    exists cause. left. reflexivity.
Qed.

(** X3. A ConfigMap that has no [install-config] key is no error of its
    own: the decoder is given the empty payload, and [GetInstallConfig]
    returns what the decoder makes of it. *)
Theorem GetInstallConfig_missing_payload (w : World) (k : rest_Config)
    (c : CoreV1Client) (cm : ConfigMap) :
  regopclient_GetConfig cluster (length (trace w)) = Ok k ->
  coreset_NewForConfig cluster (S (length (trace w))) k = Ok c ->
  ConfigMaps_Get cluster (S (S (length (trace w))))
    installerConfigNamespace installerConfigName = Ok cm ->
  ConfigMap_Data cm !! "install-config" = None ->
  fst (GetInstallConfig w) =
  match yaml_Decode "" with
  | Err err =>
      Err (errorString
             ("unable to decode cluster install configuration: " +:+ Error err))
  | Ok installConfig => Ok installConfig
  end.
Proof.
  intros Hk Hc Hcm Hnone. rewrite GetInstallConfig_eq, Hk, Hc, Hcm, Hnone.
  reflexivity.
Qed.


End InstallConfiguration.

(** ** [GetAWSConfig] on the paths the claims leave out *)

Section Coverage.

Variable ns user : string.
Variable yaml_Decode : string -> result InstallConfig.
Variable cluster : Cluster.

Local Abbreviation GetAWSConfig := (GetAWSConfig ns user yaml_Decode cluster).
Local Abbreviation installConfigRead := (installConfigRead yaml_Decode cluster).
Local Abbreviation afterUser := (afterUser ns user).
Local Abbreviation userSecretRead := (userSecretRead ns user cluster).
Local Abbreviation userSecretNotFound := (userSecretNotFound ns user cluster).
Local Abbreviation systemSecretRead := (systemSecretRead ns cluster).
Local Abbreviation systemSecretAbsent := (systemSecretAbsent ns cluster).
Local Abbreviation userCall := (userCall ns user).
Local Abbreviation systemCall := (systemCall ns).
Local Abbreviation polled := (polled ns (1 * Second)).

(** How a run goes up to the secrets, call by call. *)
Lemma GetAWSConfig_up_to_secrets :
  match regopclient_GetConfig cluster 0 with
  | Err e => GetAWSConfig start = (Err e, mkWorld 0 (firstn 1 installCalls))
  | Ok k1 =>
  match coreset_NewForConfig cluster 1 k1 with
  | Err e => GetAWSConfig start = (Err e, mkWorld 0 (firstn 2 installCalls))
  | Ok c1 =>
  match regopclient_GetConfig cluster 2 with
  | Err e => GetAWSConfig start = (Err e, mkWorld 0 (firstn 3 installCalls))
  | Ok k2 =>
  match coreset_NewForConfig cluster 3 k2 with
  | Err e => GetAWSConfig start = (Err e, mkWorld 0 (firstn 4 installCalls))
  | Ok c2 =>
  match ConfigMaps_Get cluster 4 installerConfigNamespace installerConfigName with
  | Err e =>
      GetAWSConfig start =
      (Err (errorString
              ("unable to read cluster install configuration: " +:+ Error e)),
       mkWorld 0 installCalls)
  | Ok cm =>
  match yaml_Decode (default "" (ConfigMap_Data cm !! "install-config")) with
  | Err e =>
      GetAWSConfig start =
      (Err (errorString
              ("unable to decode cluster install configuration: " +:+ Error e)),
       mkWorld 0 installCalls)
  | Ok ic => installConfigRead ic
  end end end end end end.
Proof.
  destruct (regopclient_GetConfig cluster 0) as [k1|e] eqn:Hk1.
  2:{ unfold clusterconfig.GetAWSConfig. unfold bind at 1.
      rewrite GetCoreClient_eq. cbn [start trace clock length app].
      rewrite Hk1. reflexivity. }
  destruct (coreset_NewForConfig cluster 1 k1) as [c1|e] eqn:Hc1.
  2:{ unfold clusterconfig.GetAWSConfig. unfold bind at 1.
      rewrite GetCoreClient_eq. cbn [start trace clock length app].
      rewrite Hk1, Hc1. reflexivity. }
  assert (Hstep : forall r : result Config * World,
    (let (a, w) := GetInstallConfig yaml_Decode cluster
                     (mkWorld 0 [CallGetConfig; CallNewForConfig]) in
     match a with
     | Err err => (Err err, w) = r
     | Ok _ => True
     end) ->
    match fst (GetInstallConfig yaml_Decode cluster
                 (mkWorld 0 [CallGetConfig; CallNewForConfig])) with
    | Err _ => GetAWSConfig start = r
    | Ok _ => True
    end).
  { intros r Hr. unfold clusterconfig.GetAWSConfig.
    rewrite (bind_run _ _ _ _ _ (GetCoreClient_ok cluster start _ _ Hk1 Hc1)).
    cbn [start trace clock app]. unfold bind at 1.
    destruct (GetInstallConfig yaml_Decode cluster _) as [[ic|err] w];
      [exact I|exact Hr]. }
  rewrite GetInstallConfig_eq in Hstep. cbn [trace clock length app] in Hstep.
  destruct (regopclient_GetConfig cluster 2) as [k2|e] eqn:Hk2;
    [|exact (Hstep _ eq_refl)].
  destruct (coreset_NewForConfig cluster 3 k2) as [c2|e] eqn:Hc2;
    [|exact (Hstep _ eq_refl)].
  cbn [fst] in Hstep.
  destruct (ConfigMaps_Get cluster 4 _ _) as [cm|e] eqn:Hcm;
    [|exact (Hstep _ eq_refl)].
  destruct (yaml_Decode _) as [ic|e] eqn:Hdec; [|exact (Hstep _ eq_refl)].
  exists k1, c1, k2, c2, cm. repeat split; assumption.
Qed.

(** A run ends before the secrets at one of the four calls for the clients
    with the error of that call, or at the ConfigMap with a plain message;
    otherwise the install configuration is read. *)
Lemma GetAWSConfig_before_secrets :
  (exists e n,
     (1 <= n <= 4)%nat /\
     GetAWSConfig start = (Err e, mkWorld 0 (firstn n installCalls)))
  \/ (exists msg,
        GetAWSConfig start = (Err (errorString msg), mkWorld 0 installCalls))
  \/ (exists ic, installConfigRead ic).
Proof.
  pose proof GetAWSConfig_up_to_secrets as H.
  destruct (regopclient_GetConfig cluster 0) as [k1|e];
    [|left; exists e, 1%nat; split; [lia|exact H]].
  destruct (coreset_NewForConfig cluster 1 k1) as [c1|e];
    [|left; exists e, 2%nat; split; [lia|exact H]].
  destruct (regopclient_GetConfig cluster 2) as [k2|e];
    [|left; exists e, 3%nat; split; [lia|exact H]].
  destruct (coreset_NewForConfig cluster 3 k2) as [c2|e];
    [|left; exists e, 4%nat; split; [lia|exact H]].
  destruct (ConfigMaps_Get cluster 4 _ _) as [cm|e];
    [|right; left; eexists; exact H].
  destruct (yaml_Decode _) as [ic|e]; [|right; left; eexists; exact H].
  right. right. exists ic. exact H.
Qed.

(** X5. [GetAWSConfig] builds a client for itself and a second one inside
    [GetInstallConfig].  When either cannot be built, the error of the
    failing call is returned as it is and the run ends at that call:
    neither the ConfigMap nor a secret is read. *)
Theorem GetAWSConfig_client_error (e : error) :
  (regopclient_GetConfig cluster 0 = Err e ->
   GetAWSConfig start = (Err e, mkWorld 0 [CallGetConfig]))
  /\
  (forall k1,
     regopclient_GetConfig cluster 0 = Ok k1 ->
     coreset_NewForConfig cluster 1 k1 = Err e ->
     GetAWSConfig start = (Err e, mkWorld 0 [CallGetConfig; CallNewForConfig]))
  /\
  (forall k1 c1,
     regopclient_GetConfig cluster 0 = Ok k1 ->
     coreset_NewForConfig cluster 1 k1 = Ok c1 ->
     (regopclient_GetConfig cluster 2 = Err e ->
      GetAWSConfig start =
      (Err e, mkWorld 0 [CallGetConfig; CallNewForConfig; CallGetConfig]))
     /\
     (forall k2,
        regopclient_GetConfig cluster 2 = Ok k2 ->
        coreset_NewForConfig cluster 3 k2 = Err e ->
        GetAWSConfig start =
        (Err e, mkWorld 0 [CallGetConfig; CallNewForConfig;
                           CallGetConfig; CallNewForConfig]))).
Proof.
  pose proof GetAWSConfig_up_to_secrets as H.
  split; [|split].
  - intros Hk1. rewrite Hk1 in H. exact H.
  - intros k1 Hk1 Hc1. rewrite Hk1, Hc1 in H. exact H.
  - intros k1 c1 Hk1 Hc1. rewrite Hk1, Hc1 in H. split.
    + intros Hk2. rewrite Hk2 in H. exact H.
    + intros k2 Hk2 Hc2. rewrite Hk2, Hc2 in H. exact H.
Qed.

(** X6. The user-defined secret comes first: when it holds both keys the
    run ends with its read.  Whatever the cluster would answer for the
    system secret, that secret is not asked for and nothing is waited
    for. *)
Theorem GetAWSConfig_user_secret_first (ic : InstallConfig) (sec : Secret)
    (a s : list Byte.byte) :
  installConfigRead ic ->
  userSecretRead (Ok sec) ->
  Secret_Data sec !! "REGISTRY_STORAGE_S3_ACCESSKEY" = Some a ->
  Secret_Data sec !! "REGISTRY_STORAGE_S3_SECRETKEY" = Some s ->
  exists cfg w,
    GetAWSConfig start = (Ok cfg, w) /\
    clock w = 0 /\
    trace w = installCalls ++ [userCall] /\
    AccessKey (S3_of cfg) = string_of_list_byte a /\
    SecretKey (S3_of cfg) = string_of_list_byte s.
Proof.
  intros Hic Hu Ha Hs. eexists _, _.
  split; [apply (user_success ns user yaml_Decode cluster ic sec a s); assumption|].
  repeat split; reflexivity.
Qed.


(** X8. The read that follows the poll is made once and not retried:
    when it fails, also with not-found because the secret went away after
    the check that saw it, the run ends with a plain message that carries
    the message of the error, and the poll is not taken up again. *)
Theorem GetAWSConfig_read_after_poll_fails (ic : InstallConfig) (k : nat)
    (sec0 : Secret) (e : error) :
  installConfigRead ic ->
  userSecretNotFound ->
  (1 <= k <= maxChecks)%nat ->
  (forall j, (1 <= j < k)%nat -> systemSecretAbsent (5 + j)) ->
  systemSecretRead (5 + k) (Ok sec0) ->
  systemSecretRead (6 + k) (Err e) ->
  exists w,
    GetAWSConfig start =
      (Err (errorString
              ("unable to get secret " +:+
               fmt_q "kube-system/installer-cloud-credentials" +:+
               ": " +:+ Error e)), w) /\
    clock w = (Z.of_nat k - 1) * Second /\
    trace w = installCalls ++ userCall :: repeat systemCall k ++ [systemCall].
Proof.
  intros Hic Hu Hk Habs Hread Hread'. rewrite maxChecks_eq in Hk.
  destruct k as [|m]; [lia|].
  eexists. split.
  - rewrite (fallback_found ns user yaml_Decode cluster ic m sec0 Hic Hu);
      [|lia|intros i Hi; apply (Habs (S i)); lia|exact Hread].
    unfold clusterconfig.systemSecretRead in Hread'.
    change (7 + m)%nat with (6 + S m)%nat. rewrite Hread'. reflexivity.
  - split.
    + cbn [clusterconfig.tried clock]. rewrite clock_polled. lia.
    + rewrite trace_tried_polled. f_equal. f_equal.
      rewrite <- repeat_cons. reflexivity.
Qed.

(** X9. The credentials of the fallback are those of the read that
    follows the poll; what the check of the poll saw is not used.  With a
    complete secret at that read the run succeeds with its values, also
    when the secret seen by the check had no keys; with a secret that
    lacks the access key at that read the run fails, also when the secret
    seen by the check was complete. *)
Theorem GetAWSConfig_keys_from_read_after_poll (ic : InstallConfig) (k : nat)
    (sec0 sec : Secret) :
  installConfigRead ic ->
  userSecretNotFound ->
  (1 <= k <= maxChecks)%nat ->
  (forall j, (1 <= j < k)%nat -> systemSecretAbsent (5 + j)) ->
  systemSecretRead (5 + k) (Ok sec0) ->
  systemSecretRead (6 + k) (Ok sec) ->
  (forall a s,
     Secret_Data sec !! "aws_access_key_id" = Some a ->
     Secret_Data sec !! "aws_secret_access_key" = Some s ->
     exists cfg,
       fst (GetAWSConfig start) = Ok cfg /\
       AccessKey (S3_of cfg) = string_of_list_byte a /\
       SecretKey (S3_of cfg) = string_of_list_byte s)
  /\
  (Secret_Data sec !! "aws_access_key_id" = None ->
   fst (GetAWSConfig start) =
   Err (missingKey "kube-system/installer-cloud-credentials" "aws_access_key_id")).
Proof.
  intros Hic Hu Hk Habs Hread Hread'. rewrite maxChecks_eq in Hk.
  destruct k as [|m]; [lia|].
  rewrite (fallback_found ns user yaml_Decode cluster ic m sec0 Hic Hu);
    [|lia|intros i Hi; apply (Habs (S i)); lia|exact Hread].
  unfold clusterconfig.systemSecretRead in Hread'.
  change (7 + m)%nat with (6 + S m)%nat. rewrite Hread'.
  unfold extracted. cbn [fst]. split.
  - intros a s -> ->. eexists. repeat split; reflexivity.
  - intros ->. reflexivity.
Qed.

(** X10. A configuration returned by [GetAWSConfig] has storage type
    [s3], an empty bucket, and the Azure and GCS blocks at their zero
    values: the function fills in the S3 credentials and the region and
    nothing else. *)
Theorem GetAWSConfig_success_shape (cfg : Config) (w : World) :
  GetAWSConfig start = (Ok cfg, w) ->
  Type_ (Config_Storage cfg) = "s3" /\
  Bucket (S3_of cfg) = "" /\
  Storage_Azure (Config_Storage cfg) = mkAzure "" "" "" /\
  Storage_GCS (Config_Storage cfg) = mkGCS "" "".
Proof.
  intros Hrun.
  destruct (GetAWSConfig_ok_inv ns user yaml_Decode cluster cfg w Hrun) as (ic & Hic).
  destruct (GetAWSConfig_eq ns user yaml_Decode cluster ic Hic) as (client & Heq).
  rewrite Heq in Hrun. unfold extracted in Hrun.
  destruct (Secrets_Get cluster 5 ns user) as [sec|err].
  - destruct (Secret_Data sec !! _); [|discriminate].
    destruct (Secret_Data sec !! _); [|discriminate].
    injection Hrun as <- _. repeat split; reflexivity.
  - destruct (IsNotFound err); [|discriminate].
    destruct (wait.PollImmediate _ _ _ _) as [[e|] w']; [discriminate|].
    destruct (Secrets_Get cluster _ ns cloudCredentialsName) as [sec|];
      [|discriminate].
    destruct (Secret_Data sec !! _); [|discriminate].
    destruct (Secret_Data sec !! _); [|discriminate].
    injection Hrun as <- _. repeat split; reflexivity.
Qed.

(** The world in which a run ends. *)
Lemma GetAWSConfig_final_world :
  (exists n, (1 <= n <= 5)%nat /\
             snd (GetAWSConfig start) = mkWorld 0 (firstn n installCalls))
  \/ snd (GetAWSConfig start) = afterUser
  \/ (userSecretNotFound /\
      exists n, (n <= 300)%nat /\
                (snd (GetAWSConfig start) = polled n afterUser \/
                 snd (GetAWSConfig start) = tried ns (polled n afterUser))).
Proof.
  destruct GetAWSConfig_before_secrets as [(e & n & Hn & ->)|[(msg & ->)|(ic & Hic)]].
  - left. exists n. split; [lia|reflexivity].
  - left. exists 5%nat. split; [lia|reflexivity].
  - destruct (GetAWSConfig_eq ns user yaml_Decode cluster ic Hic) as (client & ->).
    destruct (Secrets_Get cluster 5 ns user) as [sec|err] eqn:Hu;
      [right; left; reflexivity|].
    destruct (IsNotFound err) eqn:Hnf; [|right; left; reflexivity].
    right. right. split; [exists err; split; assumption|].
    destruct (PollImmediate_polled ns cluster client (1 * Second) (5 * Minute) afterUser)
      as (n & Hn & Heq).
    rewrite ticks_eq in Hn. exists n. split; [exact Hn|].
    destruct (wait.PollImmediate _ _ _ _) as [[e|] w]; cbn [snd] in *; subst w.
    + left. reflexivity.
    + right. destruct (Secrets_Get cluster _ ns cloudCredentialsName); reflexivity.
Qed.


(** X12. Whatever the cluster answers, a run of [GetAWSConfig] waits a
    whole number of seconds, five minutes at most, and it waits only in
    the fallback: with any answer but not-found for the user-defined
    secret the clock stays where it was. *)
Theorem GetAWSConfig_waits_at_most_five_minutes :
  exists n,
    (n <= 300)%nat /\
    clock (snd (GetAWSConfig start)) = Z.of_nat n * Second /\
    clock (snd (GetAWSConfig start)) <= 5 * Minute /\
    (n = 0%nat \/ userSecretNotFound).
Proof.
  destruct GetAWSConfig_final_world
    as [(n & Hn & ->)|[->|(Hu & n & Hn & [->| ->])]].
  - exists 0%nat. repeat split; try reflexivity; [lia|discriminate|left; reflexivity].
  - exists 0%nat. repeat split; try reflexivity; [lia|discriminate|left; reflexivity].
  - exists n. rewrite clock_polled. unfold Minute, Second.
    repeat split; try lia. right. exact Hu.
  - exists n. cbn [clusterconfig.tried clock]. rewrite clock_polled.
    unfold Minute, Second. repeat split; try lia. right. exact Hu.
Qed.

(** X13. Once both clients are built, no error of [GetAWSConfig] is a
    not-found error: a missing ConfigMap and a secret gone at the read
    after the poll come back as plain messages, a missing user-defined
    secret starts the fallback, and a missing system secret ends in the
    timeout of the poll.  A caller cannot tell a missing object by
    [errors.IsNotFound]. *)
Theorem GetAWSConfig_error_never_not_found (k1 k2 : rest_Config)
    (c1 c2 : CoreV1Client) (e : error) (w : World) :
  regopclient_GetConfig cluster 0 = Ok k1 ->
  coreset_NewForConfig cluster 1 k1 = Ok c1 ->
  regopclient_GetConfig cluster 2 = Ok k2 ->
  coreset_NewForConfig cluster 3 k2 = Ok c2 ->
  GetAWSConfig start = (Err e, w) ->
  IsNotFound e = false.
Proof.
  intros Hk1 Hc1 Hk2 Hc2 Hrun.
  pose proof GetAWSConfig_up_to_secrets as H.
  rewrite Hk1, Hc1, Hk2, Hc2 in H.
  destruct (ConfigMaps_Get cluster 4 _ _) as [cm|e'].
  2:{ rewrite H in Hrun. injection Hrun as <- _. reflexivity. }
  destruct (yaml_Decode _) as [ic|e'].
  2:{ rewrite H in Hrun. injection Hrun as <- _. reflexivity. }
  destruct (GetAWSConfig_eq ns user yaml_Decode cluster ic H) as (client & Heq).
  rewrite Heq in Hrun. unfold extracted in Hrun.
  destruct (Secrets_Get cluster 5 ns user) as [sec|err].
  - destruct (Secret_Data sec !! _);
      [|injection Hrun as <- _; reflexivity].
    destruct (Secret_Data sec !! _); [discriminate|].
    injection Hrun as <- _. reflexivity.
  - destruct (IsNotFound err) eqn:Hnf;
      [|injection Hrun as <- _; exact Hnf].
    destruct (wait.PollImmediate _ _ _ _) as [[e'|] w'] eqn:Hpoll.
    + injection Hrun as <- _.
      apply (PollImmediate_error ns cluster client _ _ _ _ _ Hpoll).
    + destruct (Secrets_Get cluster _ ns cloudCredentialsName) as [sec|];
        [|injection Hrun as <- _; reflexivity].
      destruct (Secret_Data sec !! _);
        [|injection Hrun as <- _; reflexivity].
      destruct (Secret_Data sec !! _); [discriminate|].
      injection Hrun as <- _. reflexivity.
Qed.

End Coverage.

(** The poll goes the same way in two clusters that answer the reads of
    secrets alike. *)
Lemma WaitFor_same_secrets (ns : string) (cluster1 cluster2 : Cluster)
    (c1 c2 : CoreV1Client) (interval : Duration) (ticks : nat) (w : World) :
  (forall i namespace name,
     Secrets_Get cluster1 i namespace name = Secrets_Get cluster2 i namespace name) ->
  wait.WaitFor interval ticks (systemSecretReady ns cluster1 c1) w =
  wait.WaitFor interval ticks (systemSecretReady ns cluster2 c2) w.
Proof.
  intros Hsec. revert w. induction ticks as [|ticks IH]; intros w.
  - reflexivity.
  - rewrite !WaitFor_S, <- Hsec.
    destruct (Secrets_Get cluster1 _ _ _) as [sec|err]; [reflexivity|].
    destruct (IsNotFound err); [apply IH|reflexivity].
Qed.

Lemma PollImmediate_same_secrets (ns : string) (cluster1 cluster2 : Cluster)
    (c1 c2 : CoreV1Client) (interval timeout : Duration) (w : World) :
  (forall i namespace name,
     Secrets_Get cluster1 i namespace name = Secrets_Get cluster2 i namespace name) ->
  wait.PollImmediate interval timeout (systemSecretReady ns cluster1 c1) w =
  wait.PollImmediate interval timeout (systemSecretReady ns cluster2 c2) w.
Proof.
  intros Hsec. rewrite !PollImmediate_eq, <- Hsec.
  destruct (Secrets_Get cluster1 _ _ _) as [sec|err]; [reflexivity|].
  destruct (IsNotFound err); [|reflexivity].
  apply WaitFor_same_secrets. exact Hsec.
Qed.

(** X14. The install descriptor decides the region and nothing else.  Take
    two clusters that answer every read of a secret alike and whose
    ConfigMaps hold different payloads, read by the same decoder as two
    descriptors.  The two runs make the same calls, wait as long, and fail
    with the same error or succeed with configurations that differ in the
    region only. *)
Theorem GetAWSConfig_descriptor_gives_region_only (ns user : string)
    (yaml_Decode : string -> result InstallConfig) (cluster1 cluster2 : Cluster)
    (ic1 ic2 : InstallConfig) :
  (forall i namespace name,
     Secrets_Get cluster1 i namespace name = Secrets_Get cluster2 i namespace name) ->
  installConfigRead yaml_Decode cluster1 ic1 ->
  installConfigRead yaml_Decode cluster2 ic2 ->
  snd (GetAWSConfig ns user yaml_Decode cluster1 start) =
  snd (GetAWSConfig ns user yaml_Decode cluster2 start) /\
  match fst (GetAWSConfig ns user yaml_Decode cluster1 start),
        fst (GetAWSConfig ns user yaml_Decode cluster2 start) with
  | Ok cfg1, Ok cfg2 => cfg2 = set_Region cfg1 (regionOf ic2)
  | Err e1, Err e2 => e1 = e2
  | _, _ => False
  end.
Proof.
  intros Hsec H1 H2.
  destruct (GetAWSConfig_eq ns user yaml_Decode cluster1 ic1 H1) as (c & ->).
  destruct (GetAWSConfig_eq ns user yaml_Decode cluster2 ic2 H2) as (c' & ->).
  rewrite <- (PollImmediate_same_secrets ns cluster1 cluster2 c c' _ _ _ Hsec).
  rewrite <- (Hsec 5%nat ns user).
  unfold extracted.
  destruct (Secrets_Get cluster1 5 ns user) as [sec|err].
  - destruct (Secret_Data sec !! _); [|split; reflexivity].
    destruct (Secret_Data sec !! _); split; reflexivity.
  - destruct (IsNotFound err); [|split; reflexivity].
    destruct (wait.PollImmediate _ _ _ _) as [[e|] w]; [split; reflexivity|].
    rewrite <- (Hsec (length (trace w)) ns cloudCredentialsName).
    destruct (Secrets_Get cluster1 _ ns cloudCredentialsName) as [sec|];
      [|split; reflexivity].
    destruct (Secret_Data sec !! _); [|split; reflexivity].
    destruct (Secret_Data sec !! _); split; reflexivity.
Qed.

(** ** The further properties at sample clusters *)

Lemma GetInstallConfig_client_error_witness :
  GetInstallConfig sampleDecode (brokenClientAt 0 awsInstall noSecrets) start =
    (Err forbidden, mkWorld 0 [CallGetConfig])
  /\
  GetInstallConfig sampleDecode (brokenClientAt 1 awsInstall noSecrets) start =
    (Err forbidden, mkWorld 0 [CallGetConfig; CallNewForConfig]).
Proof.
  split.
  - apply (proj1 (GetInstallConfig_client_error sampleDecode
             (brokenClientAt 0 awsInstall noSecrets) start forbidden)).
    reflexivity.
  - apply (proj2 (GetInstallConfig_client_error sampleDecode
             (brokenClientAt 1 awsInstall noSecrets) start forbidden)
           sampleKubeconfig).
    + reflexivity.
    + reflexivity.
Defined.

Lemma GetInstallConfig_error_is_plain_witness :
  IsNotFound
    (errorString
       ("unable to read cluster install configuration: " +:+ "configmaps not found"))
  = false /\
  exists cause,
    errorString
      ("unable to read cluster install configuration: " +:+ "configmaps not found") =
    errorString ("unable to read cluster install configuration: " +:+ Error cause) \/
    errorString
      ("unable to read cluster install configuration: " +:+ "configmaps not found") =
    errorString ("unable to decode cluster install configuration: " +:+ Error cause).
Proof.
  apply (GetInstallConfig_error_is_plain sampleDecode
           (sampleCluster missingInstall noSecrets) start (mkWorld 0 readCalls)
           sampleKubeconfig sampleClient).
  - reflexivity.
  - reflexivity.
  - vm_compute. reflexivity.
Defined.

Lemma GetInstallConfig_missing_payload_witness :
  fst (GetInstallConfig sampleDecode (sampleCluster keylessInstall noSecrets) start) =
  Err (errorString
         ("unable to decode cluster install configuration: " +:+
          "couldn't get version/kind; json parse error")).
Proof.
  apply (GetInstallConfig_missing_payload sampleDecode
           (sampleCluster keylessInstall noSecrets) start
           sampleKubeconfig sampleClient (mkConfigMap ∅)).
  - reflexivity.
  - reflexivity.
  - reflexivity.
  - reflexivity.
Defined.

Lemma GetAWSConfig_client_error_witness :
  GetAWSConfig sampleNamespace sampleUser sampleDecode
    (brokenClientAt 0 awsInstall (userOnly sampleUserSecret)) start =
    (Err forbidden, mkWorld 0 [CallGetConfig])
  /\
  GetAWSConfig sampleNamespace sampleUser sampleDecode
    (brokenClientAt 1 awsInstall (userOnly sampleUserSecret)) start =
    (Err forbidden, mkWorld 0 [CallGetConfig; CallNewForConfig])
  /\
  GetAWSConfig sampleNamespace sampleUser sampleDecode
    (brokenClientAt 2 awsInstall (userOnly sampleUserSecret)) start =
    (Err forbidden, mkWorld 0 [CallGetConfig; CallNewForConfig; CallGetConfig])
  /\
  GetAWSConfig sampleNamespace sampleUser sampleDecode
    (brokenClientAt 3 awsInstall (userOnly sampleUserSecret)) start =
    (Err forbidden,
     mkWorld 0 [CallGetConfig; CallNewForConfig; CallGetConfig; CallNewForConfig]).
Proof.
  split; [|split; [|split]].
  - apply (proj1 (GetAWSConfig_client_error sampleNamespace sampleUser sampleDecode
             (brokenClientAt 0 awsInstall (userOnly sampleUserSecret)) forbidden)).
    reflexivity.
  - apply (proj1 (proj2 (GetAWSConfig_client_error sampleNamespace sampleUser
             sampleDecode (brokenClientAt 1 awsInstall (userOnly sampleUserSecret))
             forbidden)) sampleKubeconfig).
    + reflexivity.
    + reflexivity.
  - apply (proj1 (proj2 (proj2 (GetAWSConfig_client_error sampleNamespace sampleUser
             sampleDecode (brokenClientAt 2 awsInstall (userOnly sampleUserSecret))
             forbidden)) sampleKubeconfig sampleClient eq_refl eq_refl)).
    reflexivity.
  - apply (proj2 (proj2 (proj2 (GetAWSConfig_client_error sampleNamespace sampleUser
             sampleDecode (brokenClientAt 3 awsInstall (userOnly sampleUserSecret))
             forbidden)) sampleKubeconfig sampleClient eq_refl eq_refl)
           sampleKubeconfig).
    + reflexivity.
    + reflexivity.
Defined.

Lemma GetAWSConfig_user_secret_first_witness :
  exists cfg w,
    GetAWSConfig sampleNamespace sampleUser sampleDecode
      (sampleCluster awsInstall (bothSecrets sampleUserSecret sampleSystemSecret))
      start = (Ok cfg, w) /\
    clock w = 0 /\
    trace w = installCalls ++ [userCall sampleNamespace sampleUser] /\
    AccessKey (S3_of cfg) = "AKIDEXAMPLE" /\
    SecretKey (S3_of cfg) = "s3cr3t".
Proof.
  apply (GetAWSConfig_user_secret_first sampleNamespace sampleUser sampleDecode
           (sampleCluster awsInstall (bothSecrets sampleUserSecret sampleSystemSecret))
           awsDescriptor sampleUserSecret
           (list_byte_of_string "AKIDEXAMPLE") (list_byte_of_string "s3cr3t")).
  - apply sample_installConfigRead. reflexivity.
  - reflexivity.
  - vm_compute. reflexivity.
  - vm_compute. reflexivity.
Defined.


Lemma sample_userSecretNotFound_once (cm : result ConfigMap) (sec0 : Secret)
    (r : result Secret) :
  userSecretNotFound sampleNamespace sampleUser
    (sampleCluster cm (systemOnceThen 6 sec0 r)).
Proof. exists notFound. split; reflexivity. Defined.

(** The system secret is seen by the first check and gone at the read
    that follows. *)
Lemma GetAWSConfig_read_after_poll_fails_witness :
  exists w,
    GetAWSConfig sampleNamespace sampleUser sampleDecode
      (sampleCluster awsInstall (systemOnceThen 6 sampleSystemSecret (Err notFound)))
      start =
      (Err (errorString
              ("unable to get secret " +:+
               fmt_q "kube-system/installer-cloud-credentials" +:+
               ": " +:+ "secrets not found")), w) /\
    clock w = 0 /\
    trace w = installCalls ++ userCall sampleNamespace sampleUser ::
              repeat (systemCall sampleNamespace) 1 ++ [systemCall sampleNamespace].
Proof.
  apply (GetAWSConfig_read_after_poll_fails sampleNamespace sampleUser sampleDecode
           (sampleCluster awsInstall
              (systemOnceThen 6 sampleSystemSecret (Err notFound)))
           awsDescriptor 1%nat sampleSystemSecret notFound).
  - apply sample_installConfigRead. reflexivity.
  - apply sample_userSecretNotFound_once.
  - rewrite maxChecks_eq. lia.
  - intros j Hj. lia.
  - reflexivity.
  - reflexivity.
Defined.

(** The check sees a secret without the access key and the read that
    follows gets the complete one; and the other way round. *)
Lemma GetAWSConfig_keys_from_read_after_poll_witness :
  (exists cfg,
     fst (GetAWSConfig sampleNamespace sampleUser sampleDecode
            (sampleCluster awsInstall
               (systemOnceThen 6 keylessSecret (Ok sampleSystemSecret))) start) =
     Ok cfg /\
     AccessKey (S3_of cfg) = "AKIDSYSTEM" /\
     SecretKey (S3_of cfg) = "syst3m")
  /\
  fst (GetAWSConfig sampleNamespace sampleUser sampleDecode
         (sampleCluster awsInstall
            (systemOnceThen 6 sampleSystemSecret (Ok keylessSecret))) start) =
  Err (missingKey "kube-system/installer-cloud-credentials" "aws_access_key_id").
Proof.
  split.
  - apply (proj1 (GetAWSConfig_keys_from_read_after_poll sampleNamespace sampleUser
             sampleDecode
             (sampleCluster awsInstall
                (systemOnceThen 6 keylessSecret (Ok sampleSystemSecret)))
             awsDescriptor 1%nat keylessSecret sampleSystemSecret
             (sample_installConfigRead awsDescriptor "aws: us-east-1" _ eq_refl)
             (sample_userSecretNotFound_once _ _ _)
             ltac:(rewrite maxChecks_eq; lia)
             ltac:(intros j Hj; lia)
             eq_refl eq_refl)
           (list_byte_of_string "AKIDSYSTEM") (list_byte_of_string "syst3m")).
    + vm_compute. reflexivity.
    + vm_compute. reflexivity.
  - apply (proj2 (GetAWSConfig_keys_from_read_after_poll sampleNamespace sampleUser
             sampleDecode
             (sampleCluster awsInstall
                (systemOnceThen 6 sampleSystemSecret (Ok keylessSecret)))
             awsDescriptor 1%nat sampleSystemSecret keylessSecret
             (sample_installConfigRead awsDescriptor "aws: us-east-1" _ eq_refl)
             (sample_userSecretNotFound_once _ _ _)
             ltac:(rewrite maxChecks_eq; lia)
             ltac:(intros j Hj; lia)
             eq_refl eq_refl)).
    vm_compute. reflexivity.
Defined.

Lemma GetAWSConfig_success_shape_witness :
  exists cfg w,
    GetAWSConfig sampleNamespace sampleUser sampleDecode
      (sampleCluster awsInstall (systemFrom 8 sampleSystemSecret)) start = (Ok cfg, w) /\
    Type_ (Config_Storage cfg) = "s3" /\
    Bucket (S3_of cfg) = "" /\
    Storage_Azure (Config_Storage cfg) = mkAzure "" "" "" /\
    Storage_GCS (Config_Storage cfg) = mkGCS "" "".
Proof.
  exists (mkConfig (mkStorage "s3" (mkAzure "" "" "") (mkGCS "" "")
                      (mkS3 "AKIDSYSTEM" "syst3m" "" "us-east-1"))),
    (tried sampleNamespace
       (polled sampleNamespace (1 * Second) 2 (afterUser sampleNamespace sampleUser))).
  assert (Hrun :
    GetAWSConfig sampleNamespace sampleUser sampleDecode
      (sampleCluster awsInstall (systemFrom 8 sampleSystemSecret)) start =
    (Ok (mkConfig (mkStorage "s3" (mkAzure "" "" "") (mkGCS "" "")
                     (mkS3 "AKIDSYSTEM" "syst3m" "" "us-east-1"))),
     tried sampleNamespace
       (polled sampleNamespace (1 * Second) 2 (afterUser sampleNamespace sampleUser))))
    by (vm_compute; reflexivity).
  split; [exact Hrun|].
  apply (GetAWSConfig_success_shape sampleNamespace sampleUser sampleDecode
           (sampleCluster awsInstall (systemFrom 8 sampleSystemSecret)) _ _ Hrun).
Defined.

(** The ConfigMap is not found: the error of the run is not a not-found
    error. *)
Lemma GetAWSConfig_error_never_not_found_witness :
  IsNotFound
    (errorString
       ("unable to read cluster install configuration: " +:+ "configmaps not found"))
  = false.
Proof.
  apply (GetAWSConfig_error_never_not_found sampleNamespace sampleUser sampleDecode
           (sampleCluster missingInstall noSecrets)
           sampleKubeconfig sampleKubeconfig sampleClient sampleClient
           (errorString
              ("unable to read cluster install configuration: " +:+
               "configmaps not found"))
           (mkWorld 0 installCalls)).
  - reflexivity.
  - reflexivity.
  - reflexivity.
  - reflexivity.
  - vm_compute. reflexivity.
Defined.

(** Two clusters with the same user-defined secret, one installed on AWS
    and one on libvirt. *)
Lemma GetAWSConfig_descriptor_gives_region_only_witness :
  snd (GetAWSConfig sampleNamespace sampleUser sampleDecode
         (sampleCluster awsInstall (userOnly sampleUserSecret)) start) =
  snd (GetAWSConfig sampleNamespace sampleUser sampleDecode
         (sampleCluster libvirtInstall (userOnly sampleUserSecret)) start) /\
  match fst (GetAWSConfig sampleNamespace sampleUser sampleDecode
               (sampleCluster awsInstall (userOnly sampleUserSecret)) start),
        fst (GetAWSConfig sampleNamespace sampleUser sampleDecode
               (sampleCluster libvirtInstall (userOnly sampleUserSecret)) start) with
  | Ok cfg1, Ok cfg2 => cfg2 = set_Region cfg1 ""
  | Err e1, Err e2 => e1 = e2
  | _, _ => False
  end.
Proof.
  apply (GetAWSConfig_descriptor_gives_region_only sampleNamespace sampleUser
           sampleDecode
           (sampleCluster awsInstall (userOnly sampleUserSecret))
           (sampleCluster libvirtInstall (userOnly sampleUserSecret))
           awsDescriptor libvirtDescriptor).
  - intros i namespace name. reflexivity.
  - apply sample_installConfigRead. reflexivity.
  - apply sample_installConfigRead. reflexivity.
Defined.
